(** * DOIcorrection.py: issuing DOIs for data-catalogue publications

    A shallow embedding of [DOIcorrection.py] and the properties of its
    six functions: the scanner [dois_required_check], the exporter
    [createXML], the generator [getDOIstring], the encoder
    [encode_xml_to_base64], the alias resolver [get_short_doi] and the
    orchestrator [createDataciteDOI].

    Python values are a small dynamically typed universe [pyval]; a Python
    computation is a value of [M]: an outcome (a returned value or a raised
    exception) together with the external calls it made, in order.  The
    external collaborators (file system, HTTP services, XML library, clock,
    random source) answer through a [World]; the relational store answers
    through an [Engine]. *)

From Stdlib Require Import ZArith NArith List String Ascii Bool Lia.
From Stdlib Require Import Strings.Byte DecimalString.
Import ListNotations.

Local Open Scope string_scope.
Local Open Scope Z_scope.
Local Set Warnings "-register-all".

(* ================================================================== *)
(** * Python strings *)
(* ================================================================== *)

Module PyStr.

(** The double quote character, for the literals of the source that
    contain one. *)
Definition dquote : string := String "034"%char EmptyString.

Definition strlen (s : string) : Z := Z.of_nat (String.length s).

Fixpoint drop (n : nat) (s : string) : string :=
  match n, s with
  | O, _ => s
  | S _, EmptyString => EmptyString
  | S n', String _ s' => drop n' s'
  end.

Fixpoint take (n : nat) (s : string) : string :=
  match n, s with
  | O, _ => EmptyString
  | S _, EmptyString => EmptyString
  | S n', String c s' => String c (take n' s')
  end.

(** [starts_with p s]: [s.startswith(p)]. *)
Fixpoint starts_with (p s : string) : bool :=
  match p, s with
  | EmptyString, _ => true
  | String _ _, EmptyString => false
  | String a p', String b s' => Ascii.eqb a b && starts_with p' s'
  end.

(** Offset of the first occurrence of [sub] in [s]. *)
Fixpoint first_occurrence (sub s : string) : option nat :=
  if starts_with sub s then Some O
  else match s with
       | EmptyString => None
       | String _ s' => option_map S (first_occurrence sub s')
       end.

(** A slice bound as CPython adjusts it: a negative bound counts from the
    end, and the result is clipped to [0 .. len]. *)
Definition adjust_index (n i : Z) : Z :=
  if i <? 0 then Z.max 0 (i + n) else Z.min i n.

(** [s.find(sub, start)]: the lowest index at or after [start] where
    [sub] occurs, [-1] when there is none. *)
Definition find (s sub : string) (start : Z) : Z :=
  let n := strlen s in
  let start' := if start <? 0 then Z.max 0 (start + n) else start in
  if n <? start' then -1
  else match first_occurrence sub (drop (Z.to_nat start') s) with
       | Some k => start' + Z.of_nat k
       | None => -1
       end.

(** [s[a:b]]. *)
Definition slice (s : string) (a b : Z) : string :=
  let n := strlen s in
  let a' := adjust_index n a in
  let b' := adjust_index n b in
  if a' <? b' then take (Z.to_nat (b' - a')) (drop (Z.to_nat a') s)
  else EmptyString.

(** [str.isspace] on one character.  A character of [string] stands for
    the code point of the same number (0 .. 255); these are the code
    points of that range that CPython's [_PyUnicode_IsWhitespace]
    accepts. *)
Definition is_space (c : ascii) : bool :=
  let n := N_of_ascii c in
  (((9 <=? n) && (n <=? 13)) || ((28 <=? n) && (n <=? 32))
   || (n =? 133) || (n =? 160))%N.

Fixpoint lstrip (s : string) : string :=
  match s with
  | EmptyString => EmptyString
  | String c s' => if is_space c then lstrip s' else s
  end.

Fixpoint rstrip (s : string) : string :=
  match s with
  | EmptyString => EmptyString
  | String c s' =>
      match rstrip s' with
      | EmptyString => if is_space c then EmptyString else String c EmptyString
      | r => String c r
      end
  end.

(** [s.strip()]. *)
Definition strip (s : string) : string := rstrip (lstrip s).

(** [sub in s]. *)
Definition contains (sub s : string) : Prop :=
  exists pre post, s = pre ++ sub ++ post.

(** [str(n)] for an integer. *)
Definition of_Z (z : Z) : string := NilZero.string_of_int (Z.to_int z).

(** [sep.join(l)]. *)
Definition join (sep : string) (l : list string) : string :=
  String.concat sep l.

(** Zero padding to a width, as the [%02d] and [%04d] of a date. *)
Definition zero_pad (width : nat) (z : Z) : string :=
  let s := of_Z z in
  let fix zeros (k : nat) : string :=
    match k with O => EmptyString | S k' => String "0"%char (zeros k') end in
  zeros (width - String.length s)%nat ++ s.

End PyStr.

(* ================================================================== *)
(** * Python values, exceptions, computations *)
(* ================================================================== *)

(** The values that reach the functions of the module.  Floats are left
    out. *)
Inductive pyval : Type :=
| VNone
| VBool (b : bool)
| VInt (z : Z)
| VStr (s : string)
| VDate (year month day : Z)
| VTuple (l : list pyval)
| VList (l : list pyval)
| VDict (l : list (string * pyval)).

Inductive exn_class : Type :=
| TypeError
| KeyError
| ValueError
| JSONDecodeError
| UnicodeDecodeError
| FileNotFoundError
| PermissionError
| OSError
| ConnectionError
| ParseError
| DBAPIError.

(** An exception object: its class and its [str()]. *)
Record pyexn : Type := Exn { exn_class_of : exn_class; exn_str : string }.

Inductive outcome (A : Type) : Type :=
| Return (a : A)
| Raise (e : pyexn).
Arguments Return {A} a.
Arguments Raise {A} e.

(** An XML element as [xml.etree.ElementTree] holds it: a tag, the
    attribute dictionary in insertion order, and the rest of the element
    (text and children), which the module does not look into. *)
Record Element : Type := mkElement {
  el_tag : string;
  el_attrib : list (string * string);
  el_content : string
}.

(** The result object of [connection.execute]. *)
Record CursorResult : Type := mkResult {
  (** the name of its class, which the versions of the library changed *)
  result_class : string;
  rowcount : Z;
  (** the [DataCiteXML] column of each row of a select, [None] for NULL *)
  result_rows : list (option string)
}.

(** What the program does to the outside, in order. *)
Inductive event : Type :=
| EvPrint (s : string)
| EvReadSql (query : string)
| EvConnect
| EvExecute (statement : string) (params : list (string * pyval))
| EvHttpGet (url : string)
| EvHttpPost (url : string) (headers : list (string * string)) (json : pyval)
| EvOpen (path : string)
| EvWriteXml (path : string) (root : Element).

Definition M (A : Type) : Type := (outcome A * list event)%type.

Definition ret {A} (a : A) : M A := (Return a, []).

Definition raise {A} (e : pyexn) : M A := (Raise e, []).

Definition bind {A B} (m : M A) (k : A -> M B) : M B :=
  match m with
  | (Return a, t) => let (o, t') := k a in (o, (t ++ t')%list)
  | (Raise e, t) => (Raise e, t)
  end.

(** An external call: it is recorded, then answers with its outcome. *)
Definition call {A} (ev : event) (o : outcome A) : M A := (o, [ev]).

Definition print (s : string) : M unit := call (EvPrint s) (Return tt).

(** [try: body / except Exception as e: handler e]. *)
Definition try_except {A} (body : M A) (handler : pyexn -> M A) : M A :=
  match body with
  | (Return a, t) => (Return a, t)
  | (Raise e, t) => let (o, t') := handler e in (o, (t ++ t')%list)
  end.

Definition exn_class_eqb (a b : exn_class) : bool :=
  match a, b with
  | TypeError, TypeError | KeyError, KeyError | ValueError, ValueError
  | JSONDecodeError, JSONDecodeError | UnicodeDecodeError, UnicodeDecodeError
  | FileNotFoundError, FileNotFoundError | PermissionError, PermissionError
  | OSError, OSError | ConnectionError, ConnectionError
  | ParseError, ParseError | DBAPIError, DBAPIError => true
  | _, _ => false
  end.

(** [try: body / except cls: handler]: only exceptions of class [cls] are
    handled (of the classes here, [FileNotFoundError] has no subclass). *)
Definition try_except_class {A} (body : M A) (cls : exn_class) (handler : M A)
  : M A :=
  try_except body
    (fun e => if exn_class_eqb (exn_class_of e) cls then handler else raise e).

Declare Scope py_scope.
Delimit Scope py_scope with py.
Notation "x <- m ;; k" := (bind m (fun x => k))
  (at level 61, m at next level, right associativity) : py_scope.
Notation "m ;;; k" := (bind m (fun _ => k))
  (at level 61, right associativity) : py_scope.
Local Open Scope py_scope.

Definition outcome_of {A} (m : M A) : outcome A := fst m.
Definition trace_of {A} (m : M A) : list event := snd m.

(* ================================================================== *)
(** * The outside world *)
(* ================================================================== *)

(** A [requests] response: [status_code], [text] and the result of
    [json()], which raises when the body is not a JSON document. *)
Record Response : Type := mkResponse {
  status_code : Z;
  text : string;
  json : outcome pyval
}.

(** The libraries and services the module calls and does not define. *)
Record World : Type := mkWorld {
  (** [repr] of a [str] (its quoting rules are the interpreter's) *)
  builtins_repr_str : string -> string;
  os_path_normpath : string -> string;
  os_path_join : string -> string -> string;
  (** [str(uuid.uuid4())] *)
  uuid_uuid4 : string;
  (** [date.today()]: year, month, day *)
  date_today : Z * Z * Z;
  (** [open(path, 'rb').read()] *)
  open_rb : string -> outcome (list byte);
  requests_get : string -> outcome Response;
  requests_post : string -> list (string * string) -> pyval -> outcome Response;
  ET_fromstring : string -> outcome Element;
  (** [ElementTree(root).write(path, encoding='utf-8', xml_declaration=True)] *)
  ElementTree_write : string -> Element -> outcome unit;
  (** the token of the [Authorization: Basic] header *)
  basic_token : string
}.

(* ================================================================== *)
(** * Built-in operations on values *)
(* ================================================================== *)

Module Py.

Definition nl : string := String "010"%char EmptyString.
Definition tab : string := String "009"%char EmptyString.

(** [repr(v)]. *)
Fixpoint repr (w : World) (v : pyval) : string :=
  match v with
  | VNone => "None"
  | VBool b => if b then "True" else "False"
  | VInt z => PyStr.of_Z z
  | VStr s => builtins_repr_str w s
  | VDate y m d =>
      "datetime.date(" ++ PyStr.of_Z y ++ ", " ++ PyStr.of_Z m ++ ", "
      ++ PyStr.of_Z d ++ ")"
  | VTuple l =>
      match l with
      | [x] => "(" ++ repr w x ++ ",)"
      | _ => "(" ++ PyStr.join ", " (map (repr w) l) ++ ")"
      end
  | VList l => "[" ++ PyStr.join ", " (map (repr w) l) ++ "]"
  | VDict l =>
      "{"
      ++ PyStr.join ", "
           (map (fun kv => let '(k, x) := kv in
                           builtins_repr_str w k ++ ": " ++ repr w x) l)
      ++ "}"
  end.

(** [str(v)], which is also what [%s] and an f-string field produce. *)
Definition str (w : World) (v : pyval) : string :=
  match v with
  | VStr s => s
  | VDate y m d =>
      PyStr.zero_pad 4 y ++ "-" ++ PyStr.zero_pad 2 m ++ "-"
      ++ PyStr.zero_pad 2 d
  | _ => repr w v
  end.

Definition type_name (v : pyval) : string :=
  match v with
  | VNone => "NoneType"
  | VBool _ => "bool"
  | VInt _ => "int"
  | VStr _ => "str"
  | VDate _ _ _ => "datetime.date"
  | VTuple _ => "tuple"
  | VList _ => "list"
  | VDict _ => "dict"
  end.

(** [len(v)]. *)
Definition len (v : pyval) : M Z :=
  match v with
  | VStr s => ret (PyStr.strlen s)
  | VTuple l | VList l => ret (Z.of_nat (List.length l))
  | VDict l => ret (Z.of_nat (List.length l))
  | _ => raise (Exn TypeError
                  ("object of type '" ++ type_name v ++ "' has no len()"))
  end.

Fixpoint dict_get (l : list (string * pyval)) (key : string) : option pyval :=
  match l with
  | [] => None
  | (k, x) :: l' => if String.eqb k key then Some x else dict_get l' key
  end.

(** [v[key]] for a string key. *)
Definition getitem (w : World) (v : pyval) (key : string) : M pyval :=
  match v with
  | VDict l =>
      match dict_get l key with
      | Some x => ret x
      | None => raise (Exn KeyError (builtins_repr_str w key))
      end
  | VStr _ => raise (Exn TypeError "string indices must be integers")
  | VList _ =>
      raise (Exn TypeError "list indices must be integers or slices, not str")
  | VTuple _ =>
      raise (Exn TypeError "tuple indices must be integers or slices, not str")
  | _ => raise (Exn TypeError
                  ("'" ++ type_name v ++ "' object is not subscriptable"))
  end.

(** [(pre + '%s' + post) % arg]: a tuple on the right is the argument list,
    anything else is the one argument. *)
Definition percent_s (w : World) (pre post : string) (arg : pyval) : M string :=
  match arg with
  | VTuple [] =>
      raise (Exn TypeError "not enough arguments for format string")
  | VTuple [x] => ret (pre ++ str w x ++ post)
  | VTuple _ =>
      raise (Exn TypeError
               "not all arguments converted during string formatting")
  | _ => ret (pre ++ str w arg ++ post)
  end.

(** [result % args] on a result object of [connection.execute], which
    defines no [__mod__] (and a tuple defines no [__rmod__]). *)
Definition mod_result (r : CursorResult) (args : pyval) : M CursorResult :=
  raise (Exn TypeError
           ("unsupported operand type(s) for %: '" ++ result_class r
            ++ "' and '" ++ type_name args ++ "'")).

(** Binding the positional arguments of a call to a function of two
    required parameters [p1], [p2]. *)
Definition call_positional2 {A} (name p1 p2 : string)
  (f : pyval -> pyval -> M A) (args : list pyval) : M A :=
  match args with
  | [a; b] => f a b
  | [] =>
      raise (Exn TypeError
               (name ++ "() missing 2 required positional arguments: '"
                ++ p1 ++ "' and '" ++ p2 ++ "'"))
  | [_] =>
      raise (Exn TypeError
               (name ++ "() missing 1 required positional argument: '"
                ++ p2 ++ "'"))
  | _ =>
      raise (Exn TypeError
               (name ++ "() takes 2 positional arguments but "
                ++ PyStr.of_Z (Z.of_nat (List.length args)) ++ " were given"))
  end.

(** [os.path.normpath(v)]: a string is normalised, another value is
    refused. *)
Definition normpath (w : World) (v : pyval) : M string :=
  match v with
  | VStr s => ret (os_path_normpath w s)
  | _ => raise (Exn TypeError
                  ("expected str, bytes or os.PathLike object, not "
                   ++ type_name v))
  end.

(** [d[k] = x] on a dictionary kept in insertion order. *)
Fixpoint dict_set {V} (l : list (string * V)) (k : string) (x : V)
  : list (string * V) :=
  match l with
  | [] => [(k, x)]
  | (k', x') :: l' =>
      if String.eqb k' k then (k, x) :: l' else (k', x') :: dict_set l' k x
  end.

(** [root.set(key, value)]. *)
Definition element_set (root : Element) (key value : string) : Element :=
  mkElement (el_tag root) (dict_set (el_attrib root) key value)
            (el_content root).

End Py.

(* ================================================================== *)
(** * base64 and bytes *)
(* ================================================================== *)

(** The [base64] module of the standard library: [b64encode] (RFC 4648,
    standard alphabet, [=] padding) and [b64decode] as [binascii] runs it
    by default (characters outside the alphabet are skipped, a complete
    padding ends the input, an incomplete last group is an error). *)
Module Base64.

Local Open Scope N_scope.

Definition table_b2a : list byte :=
  list_byte_of_string
    "ABCDEFGHIJKLMNOPQRSTUVWXYZabcdefghijklmnopqrstuvwxyz0123456789+/".

Definition pad : byte := "="%byte.

(** The character of a 6-bit group. *)
Definition b2a (n : N) : byte := nth (N.to_nat n) table_b2a pad.

Fixpoint index_of (c : byte) (l : list byte) (i : N) : option N :=
  match l with
  | [] => None
  | x :: l' => if Byte.eqb x c then Some i else index_of c l' (i + 1)
  end.

(** The 6-bit group of a character, [None] outside the alphabet. *)
Definition a2b (c : byte) : option N := index_of c table_b2a 0.

(** A number stored into an [unsigned char]. *)
Definition to_byte (n : N) : byte :=
  match Byte.of_N (N.land n 255) with
  | Some b => b
  | None => "000"%byte
  end.

Fixpoint b64encode (bs : list byte) : list byte :=
  match bs with
  | [] => []
  | [a] =>
      let x := Byte.to_N a in
      [b2a (N.shiftr x 2); b2a (N.shiftl (N.land x 3) 4); pad; pad]
  | [a; b] =>
      let x := Byte.to_N a in
      let y := Byte.to_N b in
      [b2a (N.shiftr x 2);
       b2a (N.lor (N.shiftl (N.land x 3) 4) (N.shiftr y 4));
       b2a (N.shiftl (N.land y 15) 2);
       pad]
  | a :: b :: c :: rest =>
      let x := Byte.to_N a in
      let y := Byte.to_N b in
      let z := Byte.to_N c in
      b2a (N.shiftr x 2)
      :: b2a (N.lor (N.shiftl (N.land x 3) 4) (N.shiftr y 4))
      :: b2a (N.lor (N.shiftl (N.land y 15) 2) (N.shiftr z 6))
      :: b2a (N.land z 63)
      :: b64encode rest
  end.

(** The loop of [binascii.a2b_base64]: [quad_pos] is the position in the
    current group of four, [leftchar] the bits not yet written, [pads] the
    padding characters seen since the last data character. *)
Fixpoint a2b_loop (input : list byte) (quad_pos : N) (leftchar : N)
  (pads : N) (out : list byte) : option (list byte) :=
  match input with
  | [] => if quad_pos =? 0 then Some out else None
  | this_ch :: rest =>
      if Byte.eqb this_ch pad then
        if (2 <=? quad_pos) && (4 <=? quad_pos + (pads + 1)) then Some out
        else a2b_loop rest quad_pos leftchar
               (if 2 <=? quad_pos then pads + 1 else pads) out
      else
        match a2b this_ch with
        | None => a2b_loop rest quad_pos leftchar pads out
        | Some v =>
            if quad_pos =? 0 then a2b_loop rest 1 v 0 out
            else if quad_pos =? 1 then
              a2b_loop rest 2 (N.land v 15) 0
                (out ++ [to_byte (N.lor (N.shiftl leftchar 2) (N.shiftr v 4))])
            else if quad_pos =? 2 then
              a2b_loop rest 3 (N.land v 3) 0
                (out ++ [to_byte (N.lor (N.shiftl leftchar 4) (N.shiftr v 2))])
            else
              a2b_loop rest 0 0 0
                (out ++ [to_byte (N.lor (N.shiftl leftchar 6) v)])
        end
  end.

Definition a2b_base64 (data : list byte) : option (list byte) :=
  a2b_loop data 0 0 0 [].

(** The numbers below [n], for checks that run through all of them. *)
Definition below (n : nat) : list N := map N.of_nat (seq 0 n).

Definition is_ascii (b : byte) : bool := Byte.to_N b <? 128.

(** [base64.b64decode(s)] on a [str]: the text must be ASCII, then
    [binascii.a2b_base64] decodes it; [None] stands for the exception
    either step raises. *)
Definition b64decode (s : string) : option (list byte) :=
  let data := list_byte_of_string s in
  if forallb is_ascii data then a2b_base64 data else None.

End Base64.

(** [bs.decode('utf-8')] where every byte is in the 7-bit range, one
    character per byte.  (Multi-byte sequences are not decoded: the only
    bytes the module decodes are base64 text, see [b64encode_ascii]; they
    are reported as the error an invalid start byte gives.) *)
Definition bytes_decode_utf8 (bs : list byte) : M string :=
  if forallb Base64.is_ascii bs then ret (string_of_list_byte bs)
  else raise (Exn UnicodeDecodeError
                "'utf-8' codec can't decode byte: invalid start byte").

(* ================================================================== *)
(** * The relational store *)
(* ================================================================== *)

Module Store.

(** A row of [[dbo].[PUBLICATION]]: the key and the nullable columns the
    module reads or writes. *)
Record publication_row : Type := mkPublication {
  ID : Z;
  PUBLISHED : option bool;
  DOI_PUBLICATION_DATE : option (Z * Z * Z);
  doi : option string;
  shortDOI : option string
}.

(** A row of [[dbo].[DATASET]]. *)
Record dataset_row : Type := mkDataset {
  PUBLICATION_ID : option Z;
  uuid : option string
}.

(** SQL truth values: [None] is UNKNOWN. *)
Definition sql_and (a b : option bool) : option bool :=
  match a, b with
  | Some false, _ | _, Some false => Some false
  | Some true, Some true => Some true
  | _, _ => None
  end.

(** A row of [pub RIGHT JOIN ds]: the publication side is [None] when it
    is NULL-extended. *)
Definition joined_row : Type := (option publication_row * dataset_row)%type.

(** [ON ds.PUBLICATION_ID = pub.ID]. *)
Definition on_clause (ds : dataset_row) (pub : publication_row) : bool :=
  match PUBLICATION_ID ds with
  | Some k => k =? ID pub
  | None => false
  end.

(** [[dbo].[PUBLICATION] pub Right Join [dbo].[DATASET] ds on ...]: every
    dataset row, once with each publication it matches, or once
    NULL-extended when it matches none. *)
Definition right_join (pubs : list publication_row) (dss : list dataset_row)
  : list joined_row :=
  flat_map
    (fun ds =>
       match filter (on_clause ds) pubs with
       | [] => [(None, ds)]
       | matches => map (fun pub => (Some pub, ds)) matches
       end)
    dss.

(** The id the query leaves out. *)
Definition excluded_id : Z := 12551.

(** [WHERE pub.PUBLISHED = 1 AND pub.DOI_PUBLICATION_DATE is null
    AND pub.ID != 12551]. *)
Definition where_clause (r : joined_row) : option bool :=
  match fst r with
  | Some pub =>
      sql_and
        (sql_and
           (option_map (fun b => Bool.eqb b true) (PUBLISHED pub))
           (Some (match DOI_PUBLICATION_DATE pub with
                  | None => true
                  | Some _ => false
                  end)))
        (Some (negb (ID pub =? excluded_id)))
  | None =>
      (* every pub column is NULL *)
      sql_and (sql_and None (Some true)) None
  end.

(** [SELECT pub.ID as 'PubID' FROM ... WHERE ...]: the rows the WHERE
    clause evaluates to TRUE on, projected on [pub.ID]. *)
Definition dois_required_query (pubs : list publication_row)
  (dss : list dataset_row) : list Z :=
  flat_map
    (fun r => match fst r with Some pub => [ID pub] | None => [] end)
    (filter (fun r => match where_clause r with Some true => true | _ => false end)
       (right_join pubs dss)).

End Store.

(** The store handle.  The select of the scanner is answered from the
    two tables; the statements the module sends as text are answered by
    the store as it sees fit. *)
Record Engine : Type := mkEngine {
  PUBLICATION : list Store.publication_row;
  DATASET : list Store.dataset_row;
  (** [Some e]: the store cannot run the select and raises [e] *)
  read_sql_error : option pyexn;
  (** [engine.connect()] *)
  engine_connect : outcome unit;
  (** [connection.execute(statement, **params)] *)
  connection_execute : string -> list (string * pyval) -> outcome CursorResult
}.

(* ================================================================== *)
(** * DOIcorrection.py *)
(* ================================================================== *)

Module DOIcorrection.

Import Py.

(** ** 1. [dois_required_check] *)

Definition query_string : string :=
  "SELECT pub.ID as 'PubID'" ++ nl
  ++ "    FROM [dbo].[PUBLICATION] pub" ++ nl
  ++ "    Right Join [dbo].[DATASET] ds on ds.PUBLICATION_ID = pub.ID" ++ nl
  ++ "    WHERE pub.PUBLISHED = 1 " ++ nl
  ++ "    AND pub.DOI_PUBLICATION_DATE is null" ++ nl
  ++ "    AND pub.ID != 12551" ++ nl
  ++ "    ".

(** [pd.read_sql_query(query_string, engine)]: the column [PubID] of the
    data frame. *)
Definition read_sql_query (engine : Engine) : M (list Z) :=
  call (EvReadSql query_string)
    (match read_sql_error engine with
     | Some e => Raise e
     | None =>
         Return (Store.dois_required_query (PUBLICATION engine) (DATASET engine))
     end).

(** [for i in range(0, len(df)): pubIDs.append(df.iloc[i]['PubID'])]. *)
Definition append_all (pubIDs : list pyval) (df : list Z) : list pyval :=
  fold_left (fun acc x => (acc ++ [VInt x])%list) df pubIDs.

(** The module-level list [pubIDs] is passed in and the list after the
    call is returned. *)
Definition dois_required_check (engine : Engine) (pubIDs : list pyval)
  : M (list pyval) :=
  try_except
    (df <- read_sql_query engine ;;
     let pubIDs' := append_all pubIDs df in
     print "query for doi check finished" ;;;
     ret pubIDs')
    (fun e =>
       print ("An error occurred: " ++ exn_str e) ;;;
       ret pubIDs).

(** ** 2. [createXML] *)

(** The body of [for row in result:] for one row. *)
Definition createXML_row (w : World) (pubID destination_folder : pyval)
  (xml_data : option string) : M unit :=
  root <- match xml_data with
          | Some s => (ET_fromstring w s, [])
          | None =>
              raise (Exn TypeError
                       "a bytes-like object is required, not 'NoneType'")
          end ;;
  let root := element_set root "xmlns:xsi"
                "http://www.w3.org/2001/XMLSchema-instance" in
  let root := element_set root "xmlns" "http://datacite.org/schema/kernel-4" in
  let root := element_set root "xsi:schemaLocation"
                "http://datacite.org/schema/kernel-4 http://schema.datacite.org/meta/kernel-4.1/metadata.xsd" in
  dir <- normpath w destination_folder ;;
  name <- percent_s w "DC" ".xml" pubID ;;
  let xml_file_path := os_path_join w dir name in
  let xml_path := os_path_normpath w xml_file_path in
  call (EvWriteXml xml_path root) (ElementTree_write w xml_path root) ;;;
  msg <- percent_s w "XML for " " was created and stored in xml_path" pubID ;;
  print msg.

Fixpoint createXML_rows (w : World) (pubID destination_folder : pyval)
  (rows : list (option string)) : M unit :=
  match rows with
  | [] => ret tt
  | row :: rows' =>
      createXML_row w pubID destination_folder row ;;;
      createXML_rows w pubID destination_folder rows'
  end.

Definition createXML (w : World) (engine : Engine)
  (pubID destination_folder : pyval) : M unit :=
  n <- len pubID ;;
  if n <=? 0 then print ("All published files have DOIs" ++ nl ++ nl)
  else
    query <- percent_s w
               (nl ++ "        SELECT dbo.DataciteXmlById(")
               (") AS DataCiteXML" ++ nl ++ "        ")
               pubID ;;
    try_except
      (call EvConnect (engine_connect engine) ;;;
       result <- call (EvExecute query [])
                   (connection_execute engine query []) ;;
       createXML_rows w pubID destination_folder (result_rows result))
      (fun e => print ("An error occurred: " ++ exn_str e)).

(** ** 3.1 [getDOIstring] *)

Definition getDOIstring (w : World) : M pyval :=
  let myUUID := uuid_uuid4 w in
  let doi := "10.20393/" ++ myUUID in
  ret (VStr doi).

(** ** 3.2 [encode_xml_to_base64] *)

Definition encode_xml_to_base64 (w : World) (destination_folder pubID : pyval)
  : M pyval :=
  dir <- normpath w destination_folder ;;
  name <- percent_s w "DC" ".xml" pubID ;;
  let xml_file_path := os_path_join w dir name in
  try_except_class
    (xml_content <- call (EvOpen xml_file_path) (open_rb w xml_file_path) ;;
     base64_encoded <- bytes_decode_utf8 (Base64.b64encode xml_content) ;;
     ret (VStr base64_encoded))
    FileNotFoundError
    (ret VNone).

(** ** 3.3 [get_short_doi] *)

Definition start_marker : string :=
  Eval cbv in "<div class=" ++ PyStr.dquote ++ "para" ++ PyStr.dquote ++ ">10/".

Definition div_open : string :=
  Eval cbv in "<div class=" ++ PyStr.dquote ++ "para" ++ PyStr.dquote ++ ">".

Definition end_marker : string := "</div>".

Definition get_short_doi (w : World) (doi : pyval) : M pyval :=
  let short_doi_url := "http://shortdoi.org/" ++ str w doi in
  response <- call (EvHttpGet short_doi_url) (requests_get w short_doi_url) ;;
  if status_code response =? 200 then
    let short_doi := PyStr.strip (text response) in
    let start_index := PyStr.find short_doi start_marker 0 in
    let end_index := PyStr.find short_doi end_marker start_index in
    if negb (start_index =? -1) && negb (end_index =? -1) then
      let sho_doi :=
        PyStr.strip
          (PyStr.slice short_doi (start_index + PyStr.strlen div_open) end_index) in
      ret (VStr sho_doi)
    else ret VNone
  else ret (VTuple [VInt (status_code response); VStr (text response)]).

(** ** 3. [createDataciteDOI] *)

Definition api_url : string := "https://api.datacite.org/dois".

Definition update_publication : string :=
  "UPDATE [dbo].[PUBLICATION] SET doi = :new_value1, DOI_PUBLICATION_DATE = :new_value2, shortDOI = :new_value3 WHERE id = :target_id; = :new_value1, column2 = :new_value2 WHERE id = :target_id".

Definition update_dataset : string :=
  "UPDATE [dbo].[DATASET] SET uuid = :new_value4 WHERE PUBLICATION_ID = :target_id2".

Definition today (w : World) : pyval :=
  let '(y, m, d) := date_today w in VDate y m d.

(** The body of the [try] of the 201 branch. *)
Definition persist (w : World) (engine : Engine) (pubID doiDC : pyval)
  : M pyval :=
  shortDOI <- get_short_doi w doiDC ;;
  call EvConnect (engine_connect engine) ;;;
  let params1 :=
    [("new_value1", VStr "%s"); ("new_value2", VStr "%s");
     ("new_value3", VStr "%s"); ("target_id", VStr "%s")] in
  executed <- call (EvExecute update_publication params1)
                (connection_execute engine update_publication params1) ;;
  result1 <- mod_result executed (VTuple [doiDC; today w; shortDOI; pubID]) ;;
  let params2 := [("new_value4", VStr "%s"); ("target_id2", pubID)] in
  result2 <- call (EvExecute update_dataset params2)
               (connection_execute engine update_dataset params2) ;;
  ret (VStr ("Publication Table Rows affected: "
             ++ PyStr.of_Z (rowcount result1)
             ++ ", Dataset Table rows affected: "
             ++ PyStr.of_Z (rowcount result2))).

Definition failure_message (w : World) (pubID : pyval) (response : Response)
  : string :=
  nl ++ "DOI creation failed for " ++ str w pubID ++ "." ++ nl ++ tab
  ++ "Response code: " ++ PyStr.of_Z (status_code response)
  ++ ", Response body: " ++ text response ++ nl ++ tab
  ++ "If file has been created, manually upload the DataCiteXML from N:\PublishedDataLibrary\dataciteXML"
  ++ nl.

Definition headers (w : World) : list (string * string) :=
  [("Content-Type", "application/vnd.api+json");
   ("Authorization", "Basic " ++ basic_token w)].

Definition metadata (doi encodedXML : pyval) : pyval :=
  VDict [("data",
          VDict [("type", VStr "dois");
                 ("attributes",
                  VDict [("event", VStr "hide");
                         ("doi", doi);
                         ("xml", encodedXML)])])].

(** The body of [createDataciteDOI] from the request on (the statements
    after [encodedXML = ...]), with the values of [doi] and [encodedXML]. *)
Definition createDataciteDOI_request (w : World) (engine : Engine)
  (pubID doi encodedXML : pyval) : M pyval :=
  response <- call (EvHttpPost api_url (headers w) (metadata doi encodedXML))
                (requests_post w api_url (headers w)
                   (metadata doi encodedXML)) ;;
  if status_code response =? 201 then
    doi_data <- (json response, []) ;;
    data <- getitem w doi_data "data" ;;
    attributes <- getitem w data "attributes" ;;
    doiDC <- getitem w attributes "doi" ;;
    try_except
      (persist w engine pubID doiDC)
      (fun e => ret (VStr ("An error occurred: " ++ exn_str e)))
  else ret (VStr (failure_message w pubID response)).

(** [encode_xml_to_base64] is called with the one argument
    [xml_file_path]. *)
Definition createDataciteDOI (w : World) (destination_folder : pyval)
  (engine : Engine) (pubID : pyval) : M pyval :=
  dir <- normpath w destination_folder ;;
  name <- percent_s w "DC" ".xml" pubID ;;
  let xml_file_path := os_path_join w dir name in
  doi <- getDOIstring w ;;
  encodedXML <- call_positional2 "encode_xml_to_base64"
                  "destination_folder" "pubID"
                  (encode_xml_to_base64 w) [VStr xml_file_path] ;;
  createDataciteDOI_request w engine pubID doi encodedXML.

End DOIcorrection.

(* ================================================================== *)
(** * Sample worlds and stores *)
(* ================================================================== *)

Module Sample.

Import DOIcorrection.

(** A page of the alias service, with the alias [10/abcde]. *)
Definition alias_page : string :=
  "<html><body>" ++ div_open ++ "10/abcde</div></body></html>".

Definition created (body : outcome pyval) : Response :=
  mkResponse 201 "{...}" body.

Definition registered_doi : pyval :=
  VDict [("data", VDict [("attributes", VDict [("doi", VStr "10.20393/abc")])])].

(** A world with only the file [out/DC7.xml], whose registration service
    answers [post] and whose alias service answers [get]. *)
Definition world (post get : outcome Response) : World :=
  mkWorld
    (fun s => "'" ++ s ++ "'")
    (fun p => p)
    (fun a b => a ++ "/" ++ b)
    "0b0e8a52-7d2c-4a4f-9d57-1f3a0c6f2b11"
    (2023, 10, 24)
    (fun p => if String.eqb p "out/DC7.xml"
              then Return (list_byte_of_string "<resource/>")
              else Raise (Exn FileNotFoundError
                            ("[Errno 2] No such file or directory: '" ++ p ++ "'")))
    (fun _ => get)
    (fun _ _ _ => post)
    (fun s => if String.eqb s "<resource/>"
              then Return (mkElement "resource" [] "")
              else Raise (Exn ParseError "syntax error: line 1, column 0"))
    (fun _ _ => Return tt)
    "dG9rZW4=".

Definition no_json : outcome pyval :=
  Raise (Exn JSONDecodeError "Expecting value: line 1 column 1 (char 0)").

(** A response that is a page and no JSON document. *)
Definition page (status : Z) (body : string) : Response :=
  mkResponse status body no_json.

Definition unreachable : outcome Response :=
  Raise (Exn ConnectionError "Max retries exceeded").

(** A world whose alias service answers [r]. *)
Definition alias_world (r : Response) : World := world unreachable (Return r).

(** A world whose registration service answers [post] and whose alias
    service answers [get]. *)
Definition registration_world (post : Response) (get : outcome Response)
  : World :=
  world (Return post) get.

(** The fixture of the scanner: published without a date, published with
    a date, unpublished without a date, each with a dataset; and record 4,
    published without a date, with no dataset. *)
Definition publications : list Store.publication_row :=
  [Store.mkPublication 1 (Some true) None None None;
   Store.mkPublication 2 (Some true) (Some (2023, 10, 24))
     (Some "10.20393/x") (Some "10/x");
   Store.mkPublication 3 (Some false) None None None;
   Store.mkPublication 4 (Some true) None None None].

Definition datasets : list Store.dataset_row :=
  [Store.mkDataset (Some 1) None;
   Store.mkDataset (Some 2) (Some "u2");
   Store.mkDataset (Some 3) None].

(** A store that accepts every statement and reports one row. *)
Definition engine : Engine :=
  mkEngine publications datasets None (Return tt)
    (fun _ _ => Return (mkResult "CursorResult" 1 [Some "<resource/>"])).

(** A store that cannot be reached. *)
Definition engine_down : Engine :=
  let e := Exn DBAPIError "Login timeout expired" in
  mkEngine publications datasets (Some e) (Raise e) (fun _ _ => Raise e).

End Sample.

(* ================================================================== *)
(** * Vocabulary of the properties *)
(* ================================================================== *)

Module Spec.

Import DOIcorrection.

(** The page holds the delimiter pattern: the opening marker, followed
    later by the closing one. *)
Definition has_alias_pattern (s : string) : Prop :=
  exists pre mid post, s = pre ++ start_marker ++ mid ++ end_marker ++ post.

(** The statements a run sent to the store, with their bound
    parameters. *)
Fixpoint executed (t : list event)
  : list (string * list (string * pyval)) :=
  match t with
  | [] => []
  | EvExecute statement params :: t' => (statement, params) :: executed t'
  | _ :: t' => executed t'
  end.

(** The requests a run posted. *)
Fixpoint posted (t : list event) : list pyval :=
  match t with
  | [] => []
  | EvHttpPost _ _ body :: t' => body :: posted t'
  | _ :: t' => posted t'
  end.

(** The files a run opened or wrote. *)
Fixpoint file_io (t : list event) : list string :=
  match t with
  | [] => []
  | EvOpen path :: t' => path :: file_io t'
  | EvWriteXml path _ :: t' => path :: file_io t'
  | _ :: t' => file_io t'
  end.

(** The field [data.attributes.doi] of the body of a response, when the
    body is a JSON document that has it. *)
Definition doi_field (response : Response) : option pyval :=
  match json response with
  | Return (VDict l) =>
      match Py.dict_get l "data" with
      | Some (VDict l1) =>
          match Py.dict_get l1 "attributes" with
          | Some (VDict l2) => Py.dict_get l2 "doi"
          | _ => None
          end
      | _ => None
      end
  | _ => None
  end.

(** A record the scanner is said to report: published, no issuance date,
    not the excluded id. *)
Definition eligible (pub : Store.publication_row) : Prop :=
  Store.PUBLISHED pub = Some true
  /\ Store.DOI_PUBLICATION_DATE pub = None
  /\ Store.ID pub <> Store.excluded_id.

(** A dataset row refers to the record. *)
Definition has_dataset (dss : list Store.dataset_row)
  (pub : Store.publication_row) : Prop :=
  exists ds, In ds dss /\ Store.PUBLICATION_ID ds = Some (Store.ID pub).

(** The value of an attribute of an element's attribute dictionary. *)
Fixpoint attrib_get (l : list (string * string)) (key : string)
  : option string :=
  match l with
  | [] => None
  | (k, x) :: l' => if String.eqb k key then Some x else attrib_get l' key
  end.

(** The identifiers [createXML] gets past its first two statements with:
    the ones that have a length and that [%s] formats as one argument. *)
Definition createXML_tolerates (pubID : pyval) : bool :=
  match pubID with
  | VStr _ | VList _ | VDict _ => true
  | VTuple [] | VTuple [_] => true
  | _ => false
  end.

(** The parameters the first update statement is sent with. *)
Definition placeholder_params : list (string * pyval) :=
  [("new_value1", VStr "%s"); ("new_value2", VStr "%s");
   ("new_value3", VStr "%s"); ("target_id", VStr "%s")].

End Spec.

(* ================================================================== *)
(** * Facts about strings *)
(* ================================================================== *)

Section StringFacts.

Import PyStr.

Lemma append_assoc (a b c : string) : (a ++ b) ++ c = a ++ (b ++ c).
Proof. induction a as [|x a IH]; simpl; [reflexivity | now rewrite IH]. Qed.

Lemma append_empty_r (a : string) : a ++ "" = a.
Proof. induction a as [|x a IH]; simpl; [reflexivity | now rewrite IH]. Qed.

Lemma length_append (a b : string) :
  String.length (a ++ b) = (String.length a + String.length b)%nat.
Proof. induction a as [|x a IH]; simpl; [reflexivity | now rewrite IH]. Qed.

Lemma drop_append (a b : string) : drop (String.length a) (a ++ b) = b.
Proof. induction a as [|x a IH]; simpl; [now destruct b | exact IH]. Qed.

Lemma drop_append_le (n : nat) (a b : string) :
  (n <= String.length a)%nat -> drop n (a ++ b) = drop n a ++ b.
Proof.
  revert a; induction n as [|n IH]; intros a Hn.
  - now destruct a.
  - destruct a as [|x a]; simpl in *; [lia | apply IH; lia].
Qed.

Lemma take_append (a b : string) : take (String.length a) (a ++ b) = a.
Proof. induction a as [|x a IH]; simpl; [now destruct b | now rewrite IH]. Qed.

Lemma take_drop (n : nat) (s : string) : take n s ++ drop n s = s.
Proof.
  revert s; induction n as [|n IH]; intros s.
  - now destruct s.
  - destruct s as [|x s]; simpl; [reflexivity | now rewrite IH].
Qed.

Lemma length_take (n : nat) (s : string) :
  (n <= String.length s)%nat -> String.length (take n s) = n.
Proof.
  revert s; induction n as [|n IH]; intros s Hn.
  - now destruct s.
  - destruct s as [|x s]; simpl in *; [lia | rewrite IH; lia].
Qed.

Lemma starts_with_iff (p s : string) :
  starts_with p s = true <-> exists r, s = p ++ r.
Proof.
  revert s; induction p as [|a p IH]; intros s; simpl.
  - split; [intros _; now exists s | reflexivity].
  - destruct s as [|b s].
    + split; [discriminate | intros [r Hr]; discriminate].
    + rewrite andb_true_iff, Ascii.eqb_eq, IH. split.
      * intros [-> [r ->]]. now exists r.
      * intros [r Hr]. injection Hr as -> ->. split; [reflexivity | now exists r].
Qed.

Lemma first_occurrence_skip (sub : string) (c : ascii) (s : string) :
  starts_with sub (String c s) = false ->
  first_occurrence sub (String c s) = option_map S (first_occurrence sub s).
Proof. intros H. cbn [first_occurrence]. now rewrite H. Qed.

Lemma first_occurrence_Some (sub s : string) (k : nat) :
  first_occurrence sub s = Some k ->
  exists pre r, s = pre ++ sub ++ r /\ String.length pre = k.
Proof.
  revert k; induction s as [|c s IH]; intros k; simpl.
  - destruct (starts_with sub "") eqn:E; [|discriminate].
    intros [= <-]. apply starts_with_iff in E as [r Hr]. now exists "", r.
  - destruct (starts_with sub (String c s)) eqn:E.
    + intros [= <-]. apply starts_with_iff in E as [r Hr]. now exists "", r.
    + destruct (first_occurrence sub s) as [j|]; [|discriminate].
      intros [= <-]. destruct (IH j eq_refl) as (pre & r & -> & Hlen).
      exists (String c pre), r. simpl. now rewrite Hlen.
Qed.

Lemma first_occurrence_bound (sub pre r : string) :
  exists k, first_occurrence sub (pre ++ sub ++ r) = Some k
            /\ (k <= String.length pre)%nat.
Proof.
  induction pre as [|c pre IH].
  - exists O. simpl (_ ++ _). split; [|apply Nat.le_refl].
    assert (E : starts_with sub (sub ++ r) = true)
      by (apply starts_with_iff; now exists r).
    destruct (sub ++ r); simpl; simpl in E; now rewrite E.
  - simpl. destruct (starts_with sub (String c (pre ++ sub ++ r))).
    + exists O. split; [reflexivity | lia].
    + destruct IH as (k & -> & Hk). exists (S k). split; [reflexivity | lia].
Qed.

Lemma first_occurrence_None (sub s : string) :
  first_occurrence sub s = None -> ~ contains sub s.
Proof.
  intros H (pre & r & ->).
  destruct (first_occurrence_bound sub pre r) as (k & Hk & _). congruence.
Qed.

Lemma contains_here (sub post : string) : contains sub (sub ++ post).
Proof. now exists "", post. Qed.

Lemma contains_skip (sub a s : string) :
  contains sub s -> contains sub (a ++ s).
Proof.
  intros (pre & post & ->). exists (a ++ pre), post.
  now rewrite append_assoc.
Qed.

(** [find] from a position inside the string. *)
Lemma find_from (s sub : string) (k : nat) :
  (k <= String.length s)%nat ->
  find s sub (Z.of_nat k)
  = match first_occurrence sub (drop k s) with
    | Some j => Z.of_nat k + Z.of_nat j
    | None => -1
    end.
Proof.
  intros Hk. unfold find, strlen.
  destruct (Z.of_nat k <? 0) eqn:E1; [apply Z.ltb_lt in E1; lia|].
  destruct (Z.of_nat (String.length s) <? Z.of_nat k) eqn:E2;
    [apply Z.ltb_lt in E2; lia|].
  now rewrite Nat2Z.id.
Qed.

Lemma slice_middle (a x b : string) :
  slice (a ++ x ++ b) (strlen a) (strlen a + strlen x) = x.
Proof.
  unfold slice, adjust_index, strlen.
  rewrite !length_append.
  set (la := String.length a). set (lx := String.length x).
  set (lb := String.length b).
  destruct (Z.of_nat la <? 0) eqn:E1; [apply Z.ltb_lt in E1; lia|].
  destruct (Z.of_nat la + Z.of_nat lx <? 0) eqn:E2; [apply Z.ltb_lt in E2; lia|].
  rewrite !Z.min_l by lia.
  destruct (Z.of_nat la <? Z.of_nat la + Z.of_nat lx) eqn:E3.
  - replace (Z.to_nat (Z.of_nat la + Z.of_nat lx - Z.of_nat la)) with lx by lia.
    rewrite Nat2Z.id. unfold la, lx. now rewrite drop_append, take_append.
  - apply Z.ltb_ge in E3. assert (lx = O) by lia.
    unfold lx in *. now destruct x.
Qed.

Lemma rstrip_cons (c : ascii) (s : string) :
  is_space c = false -> rstrip (String c s) = String c (rstrip s).
Proof. intros H. simpl. rewrite H. now destruct (rstrip s). Qed.

Lemma lstrip_keeps (pre : string) (c : ascii) (r : string) :
  is_space c = false ->
  exists pre', lstrip (pre ++ String c r) = pre' ++ String c r.
Proof.
  intros Hc. induction pre as [|x pre IH]; simpl.
  - rewrite Hc. now exists "".
  - destruct (is_space x); [exact IH | now exists (String x pre)].
Qed.

Lemma rstrip_keeps (a : string) (c : ascii) (post : string) :
  is_space c = false ->
  exists post', rstrip (a ++ String c post) = a ++ String c post'.
Proof.
  intros Hc. induction a as [|x a IH].
  - simpl (_ ++ _). rewrite rstrip_cons by assumption. now exists (rstrip post).
  - destruct IH as [post' E]. exists post'.
    change (String x a ++ String c post) with (String x (a ++ String c post)).
    simpl. rewrite E. now destruct a.
Qed.

(** Stripping keeps a core that begins and ends with a character that is
    not white space. *)
Lemma strip_keeps (pre : string) (c1 : ascii) (m : string) (c2 : ascii)
  (post : string) :
  is_space c1 = false -> is_space c2 = false ->
  exists pre' post',
    strip (pre ++ String c1 (m ++ String c2 post))
    = pre' ++ String c1 (m ++ String c2 post').
Proof.
  intros H1 H2. unfold strip.
  destruct (lstrip_keeps pre c1 (m ++ String c2 post) H1) as [pre' ->].
  destruct (rstrip_keeps (pre' ++ String c1 m) c2 post H2) as [post' E].
  exists pre', post'.
  rewrite !append_assoc in E. simpl in E. exact E.
Qed.

Lemma lstrip_suffix (s : string) : exists a, s = a ++ lstrip s.
Proof.
  induction s as [|c s [a IH]]; simpl.
  - now exists "".
  - destruct (is_space c); [|now exists ""].
    exists (String c a). simpl. now rewrite <- IH.
Qed.

Lemma rstrip_prefix (s : string) : exists b, s = rstrip s ++ b.
Proof.
  induction s as [|c s [b IH]]; simpl.
  - now exists "".
  - destruct (rstrip s) as [|x r] eqn:E.
    + destruct (is_space c).
      * now exists (String c s).
      * exists b. simpl in *. now rewrite <- IH.
    + exists b. simpl in *. now rewrite <- IH.
Qed.

(** The stripped text is a part of the text. *)
Lemma strip_inside (s : string) : exists a b, s = a ++ strip s ++ b.
Proof.
  unfold strip. destruct (lstrip_suffix s) as [a Ha].
  destruct (rstrip_prefix (lstrip s)) as [b Hb].
  exists a, b. now rewrite <- Hb.
Qed.

End StringFacts.

(* ================================================================== *)
(** * The alias resolver *)
(* ================================================================== *)

Section AliasResolver.

Import PyStr DOIcorrection Spec.

Lemma start_marker_split (x : string) :
  start_marker ++ x = div_open ++ "10/" ++ x.
Proof. reflexivity. Qed.

(** No closing marker begins inside the opening marker. *)
Lemma end_marker_after_start (rest : string) :
  first_occurrence end_marker (start_marker ++ rest)
  = option_map (fun j => (21 + j)%nat) (first_occurrence end_marker rest).
Proof.
  unfold start_marker. cbn [append].
  rewrite !first_occurrence_skip by reflexivity.
  now destruct (first_occurrence end_marker rest).
Qed.

Lemma find_at_0 (s sub : string) :
  find s sub 0
  = match first_occurrence sub s with
    | Some k => Z.of_nat k
    | None => -1
    end.
Proof.
  change 0 with (Z.of_nat 0). rewrite find_from by lia. simpl.
  replace (drop 0 s) with s by now destruct s.
  reflexivity.
Qed.

(** What the two searches and the slice of [get_short_doi] find in a
    page [s]. *)
Lemma parse_alias (s : string) :
  let start_index := find s start_marker 0 in
  let end_index := find s end_marker start_index in
  (start_index <> -1 /\ end_index <> -1 /\
   exists pre body post,
     s = pre ++ start_marker ++ body ++ end_marker ++ post
     /\ first_occurrence start_marker s = Some (String.length pre)
     /\ first_occurrence end_marker (body ++ end_marker ++ post)
        = Some (String.length body)
     /\ slice s (start_index + strlen div_open) end_index = "10/" ++ body)
  \/ ((start_index = -1 \/ end_index = -1) /\ ~ has_alias_pattern s).
Proof.
  intros start_index end_index. subst start_index end_index.
  rewrite find_at_0.
  destruct (first_occurrence start_marker s) as [k|] eqn:Ek.
  - destruct (first_occurrence_Some _ _ _ Ek) as (pre & r & Hs & Hk).
    assert (Hle : (k <= String.length s)%nat)
      by (rewrite Hs, length_append; lia).
    rewrite find_from by exact Hle.
    assert (Hdrop : drop k s = start_marker ++ r)
      by (rewrite Hs, <- Hk; apply drop_append).
    rewrite Hdrop, end_marker_after_start.
    destruct (first_occurrence end_marker r) as [j|] eqn:Ej; cbn [option_map].
    + left. split; [lia|]. split; [lia|].
      destruct (first_occurrence_Some _ _ _ Ej) as (body & post & Hr & Hj).
      exists pre, body, post. subst r.
      split; [exact Hs|]. split; [now rewrite Hk|].
      split; [now rewrite Hj|].
      rewrite Hs at 1. rewrite start_marker_split.
      rewrite <- (append_assoc pre div_open).
      rewrite <- (append_assoc "10/" body).
      replace (Z.of_nat k + strlen div_open) with (strlen (pre ++ div_open))
        by (unfold strlen; rewrite length_append, Hk; lia).
      replace (Z.of_nat k + Z.of_nat (21 + j))
        with (strlen (pre ++ div_open) + strlen ("10/" ++ body))
        by (unfold strlen; rewrite !length_append, Hk, Hj; simpl String.length; lia).
      apply slice_middle.
    + right. split; [now right|].
      intros (pre0 & mid & post & Hpat).
      destruct (first_occurrence_bound start_marker pre0 (mid ++ end_marker ++ post))
        as (k' & Hk' & Hle').
      rewrite <- Hpat, Ek in Hk'. injection Hk' as <-.
      assert (Hdrop' : drop k s = drop k pre0 ++ start_marker ++ mid ++ end_marker ++ post)
        by (rewrite Hpat; now apply drop_append_le).
      assert (Hc : contains end_marker (drop k s)).
      { exists (drop k pre0 ++ start_marker ++ mid), post.
        rewrite Hdrop', !append_assoc. reflexivity. }
      rewrite Hdrop in Hc.
      destruct Hc as (a & b & Hab).
      destruct (first_occurrence_bound end_marker a b) as (j & Hj & _).
      rewrite <- Hab, end_marker_after_start, Ej in Hj. discriminate.
  - right. split; [now left|].
    intros (pre0 & mid & post & Hpat).
    apply (first_occurrence_None _ _ Ek).
    now exists pre0, (mid ++ end_marker ++ post).
Qed.

Lemma strip_alias (body : string) :
  strip ("10/" ++ body) = "10/" ++ rstrip body.
Proof.
  unfold strip. simpl lstrip.
  change ("10/" ++ body) with (String "1" (String "0" (String "/" body))).
  now rewrite !rstrip_cons by reflexivity.
Qed.

(** The pattern is in a page exactly when it is in the stripped page. *)
Lemma has_alias_pattern_strip (t : string) :
  has_alias_pattern t <-> has_alias_pattern (strip t).
Proof.
  split.
  - intros (pre & mid & post & ->).
    destruct (strip_keeps pre "<" (drop 1 start_marker ++ mid ++ "</div") ">" post
                eq_refl eq_refl) as (pre' & post' & E).
    exists pre', mid, post'.
    replace (pre ++ start_marker ++ mid ++ end_marker ++ post)
      with (pre ++ String "<" ((drop 1 start_marker ++ mid ++ "</div") ++ String ">" post))
      by (simpl; now rewrite !append_assoc).
    rewrite E. simpl. now rewrite !append_assoc.
  - intros (pre & mid & post & E).
    destruct (strip_inside t) as (a & b & Ht).
    exists (a ++ pre), mid, (post ++ b).
    rewrite Ht at 1. rewrite E. now rewrite !append_assoc.
Qed.

(** One call of [get_short_doi] whose GET is answered. *)
Lemma get_short_doi_answered (w : World) (doi : pyval) (response : Response) :
  requests_get w ("http://shortdoi.org/" ++ Py.str w doi) = Return response ->
  get_short_doi w doi
  = (Return
       (if status_code response =? 200 then
          let short_doi := strip (text response) in
          let start_index := find short_doi start_marker 0 in
          let end_index := find short_doi end_marker start_index in
          if negb (start_index =? -1) && negb (end_index =? -1) then
            VStr (strip (slice short_doi (start_index + strlen div_open) end_index))
          else VNone
        else VTuple [VInt (status_code response); VStr (text response)]),
     [EvHttpGet ("http://shortdoi.org/" ++ Py.str w doi)]).
Proof.
  intros H. unfold get_short_doi, bind, call. rewrite H.
  destruct (status_code response =? 200); [|reflexivity].
  cbv zeta.
  destruct (negb _ && negb _); reflexivity.
Qed.

Lemma get_short_doi_failed (w : World) (doi : pyval) (e : pyexn) :
  requests_get w ("http://shortdoi.org/" ++ Py.str w doi) = Raise e ->
  get_short_doi w doi
  = (Raise e, [EvHttpGet ("http://shortdoi.org/" ++ Py.str w doi)]).
Proof. intros H. unfold get_short_doi, bind, call. now rewrite H. Qed.

End AliasResolver.

Section AliasResolverClaims.

Import PyStr DOIcorrection Spec.

(** The page of the specification's example gives the alias [10/abcde],
    also with white space around the page. *)
Example get_short_doi_example (post : outcome Response) (j : outcome pyval) :
  get_short_doi
    (Sample.world post
       (Return (mkResponse 200 (" " ++ Sample.alias_page ++ Py.nl) j)))
    (VStr "10.20393/abc")
  = (Return (VStr "10/abcde"), [EvHttpGet "http://shortdoi.org/10.20393/abc"]).
Proof. reflexivity. Qed.

(** C7. [get_short_doi], when the alias service answers the GET with
    [response]:
    - status 200 and the page holds the delimiter pattern: the result is
      the string between the markers, that is, with [body] the text from
      the first opening marker [<div class="para">10/] of the stripped
      page to the first closing marker [</div>] after it, the stripped
      ["10/" ++ body];
    - status 200 and no pattern in the page: the result is [None];
    - another status: the result is the tuple [(status_code, text)].
    In each case nothing is raised and the GET is the only external call. *)
Theorem get_short_doi_spec (w : World) (doi : pyval) (response : Response) :
  requests_get w ("http://shortdoi.org/" ++ Py.str w doi) = Return response ->
  trace_of (get_short_doi w doi)
  = [EvHttpGet ("http://shortdoi.org/" ++ Py.str w doi)]
  /\ (status_code response = 200 -> has_alias_pattern (text response) ->
      exists pre body post,
        strip (text response)
        = pre ++ start_marker ++ body ++ end_marker ++ post
        /\ first_occurrence start_marker (strip (text response))
           = Some (String.length pre)
        /\ first_occurrence end_marker (body ++ end_marker ++ post)
           = Some (String.length body)
        /\ outcome_of (get_short_doi w doi)
           = Return (VStr (strip ("10/" ++ body))))
  /\ (status_code response = 200 -> ~ has_alias_pattern (text response) ->
      outcome_of (get_short_doi w doi) = Return VNone)
  /\ (status_code response <> 200 ->
      outcome_of (get_short_doi w doi)
      = Return (VTuple [VInt (status_code response); VStr (text response)])).
Proof.
  intros Hget. rewrite (get_short_doi_answered w doi response Hget).
  unfold trace_of, outcome_of. cbn [fst snd].
  split; [reflexivity|].
  pose proof (parse_alias (strip (text response))) as Hparse.
  cbv zeta in Hparse |- *.
  repeat split.
  - intros H200 Hpat. rewrite H200, Z.eqb_refl.
    destruct Hparse as [(Hs & He & pre & body & post & E1 & E2 & E3 & E4)
                       | (_ & Habs)].
    + exists pre, body, post. repeat split; try assumption.
      apply Z.eqb_neq in Hs, He. rewrite Hs, He. cbn [negb andb].
      now rewrite E4.
    + exfalso. apply Habs. exact (proj1 (has_alias_pattern_strip _) Hpat).
  - intros H200 Hpat. rewrite H200, Z.eqb_refl.
    destruct Hparse as [(_ & _ & pre & body & post & E1 & _) | (Hno & _)].
    + exfalso. apply Hpat. apply (proj2 (has_alias_pattern_strip _)).
      now exists pre, body, post.
    + destruct Hno as [-> | ->]; cbn [Z.eqb negb andb]; [reflexivity|].
      now rewrite andb_false_r.
  - intros Hne. apply Z.eqb_neq in Hne. now rewrite Hne.
Qed.

(** C10. Whenever [get_short_doi] returns a string, the string begins
    with [10/]: the slice starts after [<div class="para">], not after
    the whole marker that was searched for. *)
Theorem get_short_doi_alias_prefix (w : World) (doi : pyval) (alias : string)
  (t : list event) :
  get_short_doi w doi = (Return (VStr alias), t) ->
  exists rest, alias = "10/" ++ rest.
Proof.
  intros H.
  destruct (requests_get w ("http://shortdoi.org/" ++ Py.str w doi))
    as [response|e] eqn:Hget.
  - rewrite (get_short_doi_answered w doi response Hget) in H.
    destruct (status_code response =? 200); [|discriminate].
    pose proof (parse_alias (strip (text response))) as Hparse.
    cbv zeta in Hparse, H.
    destruct Hparse as [(Hs & He & pre & body & post & _ & _ & _ & E4)
                       | (Hno & _)].
    + apply Z.eqb_neq in Hs, He. rewrite Hs, He in H. cbn [negb andb] in H.
      rewrite E4, strip_alias in H. injection H as <- _.
      now exists (rstrip body).
    + destruct Hno as [E | E]; rewrite E in H; cbn [Z.eqb negb andb] in H;
        [|rewrite andb_false_r in H]; discriminate.
  - rewrite (get_short_doi_failed w doi e Hget) in H. discriminate.
Qed.

End AliasResolverClaims.

Section AliasResolverWitnesses.

Import PyStr DOIcorrection Spec.

Lemma no_start_marker (s : string) :
  first_occurrence start_marker s = None -> ~ has_alias_pattern s.
Proof.
  intros H (pre & mid & post & E).
  apply (first_occurrence_None _ _ H).
  now exists pre, (mid ++ end_marker ++ post).
Qed.

Lemma get_short_doi_spec_witness :
  (exists pre body post,
      strip Sample.alias_page = pre ++ start_marker ++ body ++ end_marker ++ post
      /\ first_occurrence start_marker (strip Sample.alias_page)
         = Some (String.length pre)
      /\ first_occurrence end_marker (body ++ end_marker ++ post)
         = Some (String.length body)
      /\ outcome_of (get_short_doi (Sample.alias_world (Sample.page 200 Sample.alias_page))
                       (VStr "10.20393/abc"))
         = Return (VStr (strip ("10/" ++ body))))
  /\ outcome_of (get_short_doi (Sample.alias_world (Sample.page 200 "<html>no alias</div>"))
                   (VStr "10.20393/abc"))
     = Return VNone
  /\ outcome_of (get_short_doi (Sample.alias_world (Sample.page 404 "Not Found"))
                   (VStr "10.20393/abc"))
     = Return (VTuple [VInt 404; VStr "Not Found"]).
Proof.
  split; [|split].
  - apply (get_short_doi_spec
             (Sample.alias_world (Sample.page 200 Sample.alias_page))
             (VStr "10.20393/abc") (Sample.page 200 Sample.alias_page) eq_refl).
    + reflexivity.
    + exists "<html><body>", "abcde", "</body></html>". reflexivity.
  - apply (get_short_doi_spec
             (Sample.alias_world (Sample.page 200 "<html>no alias</div>"))
             (VStr "10.20393/abc") (Sample.page 200 "<html>no alias</div>") eq_refl).
    + reflexivity.
    + apply no_start_marker. reflexivity.
  - apply (get_short_doi_spec
             (Sample.alias_world (Sample.page 404 "Not Found"))
             (VStr "10.20393/abc") (Sample.page 404 "Not Found") eq_refl).
    simpl. discriminate.
Defined.

Lemma get_short_doi_alias_prefix_witness :
  get_short_doi (Sample.alias_world (Sample.page 200 Sample.alias_page))
    (VStr "10.20393/abc")
  = (Return (VStr "10/abcde"), [EvHttpGet "http://shortdoi.org/10.20393/abc"])
  /\ exists rest, "10/abcde" = "10/" ++ rest.
Proof.
  split; [reflexivity|].
  apply (get_short_doi_alias_prefix
           (Sample.alias_world (Sample.page 200 Sample.alias_page))
           (VStr "10.20393/abc") "10/abcde"
           [EvHttpGet "http://shortdoi.org/10.20393/abc"]).
  reflexivity.
Defined.

End AliasResolverWitnesses.

(* ================================================================== *)
(** * base64: decoding undoes encoding *)
(* ================================================================== *)

Section Base64Facts.

Import Base64.
Local Open Scope N_scope.

Lemma below_In (n : nat) (x : N) : x < N.of_nat n -> In x (below n).
Proof.
  intros H. unfold below. apply in_map_iff. exists (N.to_nat x).
  split; [apply N2Nat.id | apply in_seq; lia].
Qed.

Lemma forallb_below (P : N -> bool) (n : nat) :
  forallb P (below n) = true -> forall x, x < N.of_nat n -> P x = true.
Proof.
  intros H x Hx. rewrite forallb_forall in H. apply H, below_In, Hx.
Qed.

Lemma to_N_lt (a : byte) : Byte.to_N a < 256.
Proof. pose proof (Byte.to_N_bounded a). lia. Qed.

Lemma to_byte_to_N (n : N) (a : byte) :
  N.land n 255 = Byte.to_N a -> to_byte n = a.
Proof. intros H. unfold to_byte. now rewrite H, Byte.of_to_N. Qed.

(** The alphabet: each 6-bit group has its own character, which is ASCII
    and is not the padding. *)
Lemma alphabet (s : N) :
  s < 64 ->
  a2b (b2a s) = Some s /\ Byte.eqb (b2a s) pad = false
  /\ is_ascii (b2a s) = true.
Proof.
  intros H.
  assert (C : forallb
                (fun s => match a2b (b2a s) with
                          | Some s' => s' =? s
                          | None => false
                          end
                          && negb (Byte.eqb (b2a s) pad)
                          && is_ascii (b2a s))
                (below 64) = true) by (vm_compute; reflexivity).
  pose proof (forallb_below _ _ C s H) as Hs. cbv beta in Hs.
  apply andb_true_iff in Hs as [Hs H3]. apply andb_true_iff in Hs as [H1 H2].
  repeat split.
  - destruct (a2b (b2a s)) as [s'|]; [|discriminate].
    apply N.eqb_eq in H1. now subst.
  - now apply negb_true_iff.
  - exact H3.
Qed.

(** The bit arithmetic of one byte. *)
Lemma groups_1 (x : N) :
  x < 256 ->
  N.shiftr x 2 < 64 /\ N.shiftl (N.land x 3) 4 < 64
  /\ N.shiftl (N.land x 15) 2 < 64 /\ N.land x 63 < 64
  /\ N.land (N.lor (N.shiftl (N.shiftr x 2) 2)
               (N.shiftr (N.shiftl (N.land x 3) 4) 4)) 255 = x
  /\ N.land (N.lor (N.shiftl (N.shiftr x 4) 4)
               (N.shiftr (N.shiftl (N.land x 15) 2) 2)) 255 = x
  /\ N.land (N.lor (N.shiftl (N.shiftr x 6) 6) (N.land x 63)) 255 = x.
Proof.
  intros H.
  assert (C : forallb
                (fun x =>
                   (N.shiftr x 2 <? 64) && (N.shiftl (N.land x 3) 4 <? 64)
                   && (N.shiftl (N.land x 15) 2 <? 64) && (N.land x 63 <? 64)
                   && (N.land (N.lor (N.shiftl (N.shiftr x 2) 2)
                                 (N.shiftr (N.shiftl (N.land x 3) 4) 4)) 255 =? x)
                   && (N.land (N.lor (N.shiftl (N.shiftr x 4) 4)
                                 (N.shiftr (N.shiftl (N.land x 15) 2) 2)) 255 =? x)
                   && (N.land (N.lor (N.shiftl (N.shiftr x 6) 6) (N.land x 63)) 255
                       =? x))
                (below 256) = true) by (vm_compute; reflexivity).
  pose proof (forallb_below _ _ C x H) as Hx. cbv beta in Hx.
  repeat (apply andb_true_iff in Hx as [Hx ?]).
  repeat split;
    first [now apply N.ltb_lt | now apply N.eqb_eq].
Qed.

(** The bit arithmetic of two neighbouring bytes. *)
Lemma groups_2 (x y : N) :
  x < 256 -> y < 256 ->
  N.lor (N.shiftl (N.land x 3) 4) (N.shiftr y 4) < 64
  /\ N.land (N.lor (N.shiftl (N.shiftr x 2) 2)
               (N.shiftr (N.lor (N.shiftl (N.land x 3) 4) (N.shiftr y 4)) 4))
       255 = x
  /\ N.land (N.lor (N.shiftl (N.land x 3) 4) (N.shiftr y 4)) 15 = N.shiftr y 4
  /\ N.lor (N.shiftl (N.land x 15) 2) (N.shiftr y 6) < 64
  /\ N.land (N.lor (N.shiftl (N.shiftr x 4) 4)
               (N.shiftr (N.lor (N.shiftl (N.land x 15) 2) (N.shiftr y 6)) 2))
       255 = x
  /\ N.land (N.lor (N.shiftl (N.land x 15) 2) (N.shiftr y 6)) 3 = N.shiftr y 6.
Proof.
  intros Hx Hy.
  assert (C : forallb
                (fun x =>
                   forallb
                     (fun y =>
                        (N.lor (N.shiftl (N.land x 3) 4) (N.shiftr y 4) <? 64)
                        && (N.land (N.lor (N.shiftl (N.shiftr x 2) 2)
                                      (N.shiftr (N.lor (N.shiftl (N.land x 3) 4)
                                                   (N.shiftr y 4)) 4)) 255 =? x)
                        && (N.land (N.lor (N.shiftl (N.land x 3) 4) (N.shiftr y 4)) 15
                            =? N.shiftr y 4)
                        && (N.lor (N.shiftl (N.land x 15) 2) (N.shiftr y 6) <? 64)
                        && (N.land (N.lor (N.shiftl (N.shiftr x 4) 4)
                                      (N.shiftr (N.lor (N.shiftl (N.land x 15) 2)
                                                   (N.shiftr y 6)) 2)) 255 =? x)
                        && (N.land (N.lor (N.shiftl (N.land x 15) 2) (N.shiftr y 6)) 3
                            =? N.shiftr y 6))
                     (below 256))
                (below 256) = true) by (vm_compute; reflexivity).
  pose proof (forallb_below _ _ (forallb_below _ _ C x Hx) y Hy) as H.
  cbv beta in H.
  repeat (apply andb_true_iff in H as [H ?]).
  repeat split;
    first [now apply N.ltb_lt | now apply N.eqb_eq].
Qed.

End Base64Facts.

Section Base64RoundTrip.

Import Base64.
Local Open Scope N_scope.

(** Induction on a list three elements at a time. *)
Lemma list_ind3 {A : Type} (P : list A -> Prop) :
  P [] -> (forall a, P [a]) -> (forall a b, P [a; b]) ->
  (forall a b c l, P l -> P (a :: b :: c :: l)) ->
  forall l, P l.
Proof.
  intros H0 H1 H2 H3 l.
  enough (H : P l /\ (forall a, P (a :: l)) /\ (forall a b, P (a :: b :: l)))
    by apply H.
  induction l as [|x l (IH0 & IH1 & IH2)].
  - auto.
  - repeat split; auto.
Qed.

(** The decoder on a data character, at each position of a group. *)
Lemma a2b_loop_at_0 (s : N) (rest : list byte) (l p : N) (out : list byte) :
  s < 64 -> a2b_loop (b2a s :: rest) 0 l p out = a2b_loop rest 1 s 0 out.
Proof.
  intros H. destruct (alphabet s H) as (E1 & E2 & _).
  cbn [a2b_loop]. now rewrite E2, E1.
Qed.

Lemma a2b_loop_at_1 (s : N) (rest : list byte) (l p : N) (out : list byte) :
  s < 64 ->
  a2b_loop (b2a s :: rest) 1 l p out
  = a2b_loop rest 2 (N.land s 15) 0
      (out ++ [to_byte (N.lor (N.shiftl l 2) (N.shiftr s 4))]).
Proof.
  intros H. destruct (alphabet s H) as (E1 & E2 & _).
  cbn [a2b_loop]. now rewrite E2, E1.
Qed.

Lemma a2b_loop_at_2 (s : N) (rest : list byte) (l p : N) (out : list byte) :
  s < 64 ->
  a2b_loop (b2a s :: rest) 2 l p out
  = a2b_loop rest 3 (N.land s 3) 0
      (out ++ [to_byte (N.lor (N.shiftl l 4) (N.shiftr s 2))]).
Proof.
  intros H. destruct (alphabet s H) as (E1 & E2 & _).
  cbn [a2b_loop]. now rewrite E2, E1.
Qed.

Lemma a2b_loop_at_3 (s : N) (rest : list byte) (l p : N) (out : list byte) :
  s < 64 ->
  a2b_loop (b2a s :: rest) 3 l p out
  = a2b_loop rest 0 0 0 (out ++ [to_byte (N.lor (N.shiftl l 6) s)]).
Proof.
  intros H. destruct (alphabet s H) as (E1 & E2 & _).
  cbn [a2b_loop]. now rewrite E2, E1.
Qed.

(** The decoder loop, started at the beginning of a group, reads the
    encoding of [bs] and writes [bs]. *)
Lemma a2b_loop_b64encode (bs : list byte) :
  forall (out : list byte) (l p : N),
    a2b_loop (b64encode bs) 0 l p out = Some (out ++ bs)%list.
Proof.
  induction bs as [|a|a b|a b c rest IH] using list_ind3; intros out l p.
  - cbn. now rewrite app_nil_r.
  - pose proof (groups_1 _ (to_N_lt a)) as (B0 & B1 & _ & _ & R & _).
    cbn [b64encode].
    rewrite a2b_loop_at_0, a2b_loop_at_1 by assumption.
    rewrite (to_byte_to_N _ a R). reflexivity.
  - pose proof (groups_1 _ (to_N_lt a)) as (B0 & _).
    pose proof (groups_1 _ (to_N_lt b)) as (_ & _ & B2 & _ & _ & R2 & _).
    pose proof (groups_2 _ _ (to_N_lt a) (to_N_lt b)) as (B1 & R1 & L1 & _).
    cbn [b64encode].
    rewrite a2b_loop_at_0, a2b_loop_at_1, a2b_loop_at_2 by assumption.
    rewrite L1, (to_byte_to_N _ a R1), (to_byte_to_N _ b R2).
    rewrite <- app_assoc. reflexivity.
  - pose proof (groups_1 _ (to_N_lt a)) as (B0 & _).
    pose proof (groups_1 _ (to_N_lt c)) as (_ & _ & _ & B3 & _ & _ & R3).
    pose proof (groups_2 _ _ (to_N_lt a) (to_N_lt b)) as (B1 & R1 & L1 & _).
    pose proof (groups_2 _ _ (to_N_lt b) (to_N_lt c))
      as (_ & _ & _ & B2 & R2 & L2).
    cbn [b64encode].
    rewrite a2b_loop_at_0, a2b_loop_at_1, a2b_loop_at_2, a2b_loop_at_3
      by assumption.
    rewrite L1, L2, (to_byte_to_N _ a R1), (to_byte_to_N _ b R2),
      (to_byte_to_N _ c R3).
    rewrite IH. now rewrite <- !app_assoc.
Qed.

(** Base64 text is ASCII. *)
Lemma b64encode_ascii (bs : list byte) :
  forallb is_ascii (b64encode bs) = true.
Proof.
  induction bs as [|a|a b|a b c rest IH] using list_ind3.
  - reflexivity.
  - pose proof (groups_1 _ (to_N_lt a)) as (B0 & B1 & _).
    cbn [b64encode forallb].
    destruct (alphabet _ B0) as (_ & _ & ->).
    destruct (alphabet _ B1) as (_ & _ & ->). reflexivity.
  - pose proof (groups_1 _ (to_N_lt a)) as (B0 & _).
    pose proof (groups_1 _ (to_N_lt b)) as (_ & _ & B2 & _).
    pose proof (groups_2 _ _ (to_N_lt a) (to_N_lt b)) as (B1 & _).
    cbn [b64encode forallb].
    destruct (alphabet _ B0) as (_ & _ & ->).
    destruct (alphabet _ B1) as (_ & _ & ->).
    destruct (alphabet _ B2) as (_ & _ & ->). reflexivity.
  - pose proof (groups_1 _ (to_N_lt a)) as (B0 & _).
    pose proof (groups_1 _ (to_N_lt c)) as (_ & _ & _ & B3 & _).
    pose proof (groups_2 _ _ (to_N_lt a) (to_N_lt b)) as (B1 & _).
    pose proof (groups_2 _ _ (to_N_lt b) (to_N_lt c)) as (_ & _ & _ & B2 & _).
    cbn [b64encode forallb].
    destruct (alphabet _ B0) as (_ & _ & ->).
    destruct (alphabet _ B1) as (_ & _ & ->).
    destruct (alphabet _ B2) as (_ & _ & ->).
    destruct (alphabet _ B3) as (_ & _ & ->). exact IH.
Qed.

(** [base64.b64decode(base64.b64encode(bs).decode('utf-8')) == bs]. *)
Lemma b64decode_b64encode (bs : list byte) :
  b64decode (string_of_list_byte (b64encode bs)) = Some bs.
Proof.
  unfold b64decode, a2b_base64.
  rewrite list_byte_of_string_of_list_byte, b64encode_ascii.
  apply (a2b_loop_b64encode bs []).
Qed.

End Base64RoundTrip.

Section EncoderClaims.

Import DOIcorrection.

(** C8. When the file [<destination_folder>/DC<record id>.xml] exists,
    [encode_xml_to_base64] returns a string whose base64 decoding is
    exactly the bytes of the file; the file is the only thing it opens. *)
Theorem encode_xml_to_base64_round_trip (w : World)
  (destination_folder : string) (record_id : Z) (content : list byte) :
  open_rb w
    (os_path_join w (os_path_normpath w destination_folder)
       ("DC" ++ PyStr.of_Z record_id ++ ".xml"))
  = Return content ->
  exists encoded,
    encode_xml_to_base64 w (VStr destination_folder) (VInt record_id)
    = (Return (VStr encoded),
       [EvOpen (os_path_join w (os_path_normpath w destination_folder)
                  ("DC" ++ PyStr.of_Z record_id ++ ".xml"))])
    /\ Base64.b64decode encoded = Some content.
Proof.
  intros Hopen.
  exists (string_of_list_byte (Base64.b64encode content)).
  split; [|apply b64decode_b64encode].
  unfold encode_xml_to_base64, try_except_class, try_except, bind, call,
    bytes_decode_utf8.
  cbn [Py.normpath Py.percent_s Py.str Py.repr ret].
  rewrite Hopen, b64encode_ascii. reflexivity.
Qed.

Lemma encode_xml_to_base64_round_trip_witness :
  open_rb (Sample.alias_world (Sample.page 404 "")) "out/DC7.xml"
  = Return (list_byte_of_string "<resource/>")
  /\ exists encoded,
      encode_xml_to_base64 (Sample.alias_world (Sample.page 404 ""))
        (VStr "out") (VInt 7)
      = (Return (VStr encoded), [EvOpen "out/DC7.xml"])
      /\ Base64.b64decode encoded = Some (list_byte_of_string "<resource/>").
Proof.
  split; [reflexivity|].
  apply (encode_xml_to_base64_round_trip
           (Sample.alias_world (Sample.page 404 "")) "out" 7
           (list_byte_of_string "<resource/>")).
  reflexivity.
Defined.

(** A missing file gives [None], and nothing is raised. *)
Lemma encode_xml_to_base64_missing (w : World) (destination_folder : string)
  (record_id : Z) (msg : string) :
  open_rb w
    (os_path_join w (os_path_normpath w destination_folder)
       ("DC" ++ PyStr.of_Z record_id ++ ".xml"))
  = Raise (Exn FileNotFoundError msg) ->
  outcome_of (encode_xml_to_base64 w (VStr destination_folder) (VInt record_id))
  = Return VNone.
Proof.
  intros Hopen.
  unfold encode_xml_to_base64, try_except_class, try_except, bind, call.
  cbn [Py.normpath Py.percent_s Py.str Py.repr ret].
  now rewrite Hopen.
Qed.

End EncoderClaims.

(* ================================================================== *)
(** * The scanner *)
(* ================================================================== *)

Section Scanner.

Import DOIcorrection Spec.

Lemma append_all_map (df : list Z) :
  forall pubIDs, append_all pubIDs df = (pubIDs ++ map VInt df)%list.
Proof.
  unfold append_all. induction df as [|x df IH]; intros pubIDs; simpl.
  - now rewrite app_nil_r.
  - rewrite IH, <- app_assoc. reflexivity.
Qed.

Lemma on_clause_true (ds : Store.dataset_row) (pub : Store.publication_row) :
  Store.on_clause ds pub = true
  <-> Store.PUBLICATION_ID ds = Some (Store.ID pub).
Proof.
  unfold Store.on_clause. destruct (Store.PUBLICATION_ID ds) as [k|].
  - rewrite Z.eqb_eq. split; [now intros -> | now intros [= ->]].
  - split; discriminate.
Qed.

(** A NULL-extended row never passes the WHERE clause. *)
Lemma where_clause_null_extended (ds : Store.dataset_row) :
  Store.where_clause (None, ds) = None.
Proof. reflexivity. Qed.

Lemma where_clause_true (pub : Store.publication_row) (ds : Store.dataset_row) :
  Store.where_clause (Some pub, ds) = Some true <-> eligible pub.
Proof.
  unfold Store.where_clause, eligible. cbn [fst].
  destruct (Store.PUBLISHED pub) as [[|]|];
    destruct (Store.DOI_PUBLICATION_DATE pub) as [d|];
    destruct (Store.ID pub =? Store.excluded_id) eqn:E; cbn;
    (apply Z.eqb_eq in E || apply Z.eqb_neq in E);
    split; try discriminate; try tauto;
    intros (H1 & H2 & H3); congruence.
Qed.

Lemma in_right_join (pubs : list Store.publication_row)
  (dss : list Store.dataset_row) (pub : Store.publication_row)
  (ds : Store.dataset_row) :
  In (Some pub, ds) (Store.right_join pubs dss)
  <-> In ds dss /\ In pub pubs
      /\ Store.PUBLICATION_ID ds = Some (Store.ID pub).
Proof.
  unfold Store.right_join. rewrite in_flat_map. split.
  - intros (ds' & Hds & Hin).
    assert (Hmap : In (Some pub, ds)
                     (map (fun p => (Some p, ds'))
                        (filter (Store.on_clause ds') pubs))).
    { destruct (filter (Store.on_clause ds') pubs) as [|p m]; [|exact Hin].
      destruct Hin as [[=]|[]]. }
    apply in_map_iff in Hmap as (p & [= -> ->] & Hp).
    apply filter_In in Hp as [Hp Hon].
    repeat split; try assumption. now apply on_clause_true.
  - intros (Hds & Hpub & Hid). exists ds. split; [exact Hds|].
    assert (Hf : In pub (filter (Store.on_clause ds) pubs))
      by (apply filter_In; split; [exact Hpub | now apply on_clause_true]).
    destruct (filter (Store.on_clause ds) pubs) as [|p m] eqn:E; [destruct Hf|].
    apply in_map_iff. now exists pub.
Qed.

(** The rows of the select. *)
Lemma in_dois_required_query (pubs : list Store.publication_row)
  (dss : list Store.dataset_row) (id : Z) :
  In id (Store.dois_required_query pubs dss)
  <-> exists pub, In pub pubs /\ Store.ID pub = id /\ eligible pub
                  /\ has_dataset dss pub.
Proof.
  unfold Store.dois_required_query, has_dataset. rewrite in_flat_map. split.
  - intros ([[pub|] ds] & Hr & Hid); cbn [fst] in Hid; [|destruct Hid].
    destruct Hid as [<-|[]].
    apply filter_In in Hr as [Hr Hw].
    apply in_right_join in Hr as (Hds & Hpub & Hfk).
    exists pub. split; [exact Hpub|]. split; [reflexivity|].
    split; [|now exists ds].
    apply (where_clause_true pub ds).
    destruct (Store.where_clause (Some pub, ds)) as [[|]|];
      [reflexivity | discriminate | discriminate].
  - intros (pub & Hpub & <- & Hel & ds & Hds & Hfk).
    exists (Some pub, ds). split; [|now left].
    apply filter_In. split.
    + now apply in_right_join.
    + apply (where_clause_true pub ds) in Hel. now rewrite Hel.
Qed.

(** C5 as the code has it.  When the store answers the select,
    [dois_required_check] appends to [pubIDs], in the order of the result
    set, exactly the ids of the records that are published, have no
    issuance date, are not record 12551 and are referred to by at least
    one dataset row; it prints one line and raises nothing. *)
Theorem dois_required_check_appends (engine : Engine) (pubIDs : list pyval) :
  read_sql_error engine = None ->
  exists new,
    dois_required_check engine pubIDs
    = (Return (pubIDs ++ map VInt new)%list,
       [EvReadSql query_string; EvPrint "query for doi check finished"])
    /\ forall id,
        In id new
        <-> exists pub,
              In pub (PUBLICATION engine) /\ Store.ID pub = id
              /\ eligible pub /\ has_dataset (DATASET engine) pub.
Proof.
  intros Hup.
  exists (Store.dois_required_query (PUBLICATION engine) (DATASET engine)).
  split; [|intros id; apply in_dois_required_query].
  unfold dois_required_check, read_sql_query, try_except, bind, call, print, ret.
  rewrite Hup. cbn. now rewrite append_all_map.
Qed.

Lemma dois_required_check_appends_witness :
  read_sql_error Sample.engine = None
  /\ exists new,
      dois_required_check Sample.engine [VInt 9]
      = (Return ([VInt 9] ++ map VInt new)%list,
         [EvReadSql query_string; EvPrint "query for doi check finished"])
      /\ forall id,
          In id new
          <-> exists pub,
                In pub (PUBLICATION Sample.engine) /\ Store.ID pub = id
                /\ eligible pub /\ has_dataset (DATASET Sample.engine) pub.
Proof.
  split; [reflexivity|].
  apply (dois_required_check_appends Sample.engine [VInt 9]). reflexivity.
Defined.

(** Record 4 of the sample store is published, has no issuance date and
    is not record 12551, and the scanner does not report it: no dataset
    row refers to it. *)
Lemma dois_required_check_misses_record_without_dataset :
  In (Store.mkPublication 4 (Some true) None None None)
    (PUBLICATION Sample.engine)
  /\ eligible (Store.mkPublication 4 (Some true) None None None)
  /\ dois_required_check Sample.engine []
     = (Return [VInt 1],
        [EvReadSql query_string; EvPrint "query for doi check finished"])
  /\ ~ In (VInt 4) [VInt 1].
Proof.
  split; [cbn; tauto|].
  split; [repeat split; discriminate|].
  split; [reflexivity|].
  intros [[=]|[]].
Qed.

(** When the store cannot run the select, the error is printed and the
    accumulator is returned as it was. *)
Lemma dois_required_check_store_error (engine : Engine) (pubIDs : list pyval)
  (e : pyexn) :
  read_sql_error engine = Some e ->
  dois_required_check engine pubIDs
  = (Return pubIDs,
     [EvReadSql query_string; EvPrint ("An error occurred: " ++ exn_str e)]).
Proof.
  intros H.
  unfold dois_required_check, read_sql_query, try_except, bind, call, print, ret.
  now rewrite H.
Qed.

Example dois_required_check_engine_down :
  dois_required_check Sample.engine_down [VInt 9]
  = (Return [VInt 9],
     [EvReadSql query_string;
      EvPrint "An error occurred: Login timeout expired"]).
Proof. reflexivity. Qed.

End Scanner.

(* ================================================================== *)
(** * The exporter *)
(* ================================================================== *)

Section Exporter.

Import DOIcorrection Spec.

(** An empty input (the empty list, string, tuple or dictionary): one
    informational message, no file touched, nothing raised. *)
Lemma createXML_empty (w : World) (engine : Engine)
  (pubID destination_folder : pyval) :
  Py.len pubID = ret 0 ->
  createXML w engine pubID destination_folder
  = (Return tt, [EvPrint ("All published files have DOIs" ++ Py.nl ++ Py.nl)]).
Proof. intros H. unfold createXML. now rewrite H. Qed.

(** Whatever happens inside the [try] is caught: with an identifier that
    has a length and can be formatted (a string or a list), [createXML]
    returns. *)
Lemma createXML_sized_returns (w : World) (engine : Engine)
  (pubID destination_folder : pyval) :
  (exists s, pubID = VStr s) \/ (exists l, pubID = VList l) ->
  exists t, createXML w engine pubID destination_folder = (Return tt, t).
Proof.
  intros H. unfold createXML.
  assert (Hlen : exists n, Py.len pubID = ret n)
    by (destruct H as [[s ->]|[l ->]]; eexists; reflexivity).
  destruct Hlen as [n ->].
  assert (Hq : exists q, forall pre post,
               Py.percent_s w pre post pubID = ret (pre ++ q ++ post))
    by (destruct H as [[s ->]|[l ->]]; eexists; reflexivity).
  destruct Hq as [q Hq]. rewrite Hq.
  unfold bind at 1. unfold ret at 1.
  destruct (n <=? 0); [eexists; reflexivity|].
  unfold bind at 1. unfold ret at 1.
  match goal with
  | |- context [try_except ?body ?handler] =>
      destruct body as [[[]|e] t'] eqn:E
  end; cbn; eexists; reflexivity.
Qed.

(** C6, at an integer record identifier.  [len(pubID)] is evaluated
    outside the [try]: for an integer it raises [TypeError], which leaves
    [createXML] uncaught, before any query or file access. *)
Theorem createXML_integer_id_raises (w : World) (engine : Engine)
  (record_id : Z) (destination_folder : pyval) :
  createXML w engine (VInt record_id) destination_folder
  = (Raise (Exn TypeError "object of type 'int' has no len()"), []).
Proof. reflexivity. Qed.

End Exporter.

(* ================================================================== *)
(** * The orchestrator *)
(* ================================================================== *)

Section Orchestrator.

Import DOIcorrection Spec.

(** [encode_xml_to_base64] has two required parameters and
    [createDataciteDOI] calls it with one argument: every call of
    [createDataciteDOI] ends in a [TypeError], at that call or before
    it, and has made no external call by then. *)
Lemma createDataciteDOI_raises (w : World) (destination_folder : pyval)
  (engine : Engine) (pubID : pyval) :
  exists msg,
    createDataciteDOI w destination_folder engine pubID
    = (Raise (Exn TypeError msg), []).
Proof.
  unfold createDataciteDOI.
  destruct destination_folder; try (eexists; reflexivity);
    destruct pubID as [| | | | |[|x [|y l]]| |]; eexists; reflexivity.
Qed.

Lemma get_short_doi_trace (w : World) (doi : pyval) :
  trace_of (get_short_doi w doi)
  = [EvHttpGet ("http://shortdoi.org/" ++ Py.str w doi)].
Proof.
  destruct (requests_get w ("http://shortdoi.org/" ++ Py.str w doi))
    as [response|e] eqn:Hget.
  - now rewrite (get_short_doi_answered w doi response Hget).
  - now rewrite (get_short_doi_failed w doi e Hget).
Qed.

(** The body of the [try] never reaches its [return]: the result of the
    first [execute] is the left operand of a [%], which raises.  By then
    at most the first statement was sent, with the literal ["%s"] bound to
    each of its parameters. *)
Lemma persist_raises (w : World) (engine : Engine) (pubID doiDC : pyval) :
  exists e t,
    persist w engine pubID doiDC = (Raise e, t)
    /\ (executed t = []
        \/ executed t
           = [(update_publication,
               [("new_value1", VStr "%s"); ("new_value2", VStr "%s");
                ("new_value3", VStr "%s"); ("target_id", VStr "%s")])]).
Proof.
  unfold persist.
  pose proof (get_short_doi_trace w doiDC) as Ht. unfold trace_of in Ht.
  destruct (get_short_doi w doiDC) as [[shortDOI|e] t0]; cbn [snd] in Ht;
    subst t0.
  - unfold bind at 1. unfold call at 1.
    destruct (engine_connect engine) as [[]|e].
    + unfold bind at 2. unfold call at 1.
      destruct (connection_execute engine update_publication _) as [r|e];
        cbn; eexists; eexists; (split; [reflexivity|]); [right|right];
        reflexivity.
    + cbn. eexists; eexists. split; [reflexivity | now left].
  - cbn. eexists; eexists. split; [reflexivity | now left].
Qed.

(** An error of the alias lookup leaves the body of the [try] before
    the store is touched. *)
Lemma persist_alias_error (w : World) (engine : Engine) (pubID doiDC : pyval)
  (e : pyexn) :
  requests_get w ("http://shortdoi.org/" ++ Py.str w doiDC) = Raise e ->
  persist w engine pubID doiDC
  = (Raise e, [EvHttpGet ("http://shortdoi.org/" ++ Py.str w doiDC)]).
Proof.
  intros H. unfold persist.
  now rewrite (get_short_doi_failed w doiDC e H).
Qed.

(** From the request on: a response other than 201 gives the failure
    message, after the POST and nothing else. *)
Lemma createDataciteDOI_request_rejected (w : World) (engine : Engine)
  (pubID doi encodedXML : pyval) (response : Response) :
  requests_post w api_url (headers w) (metadata doi encodedXML)
  = Return response ->
  status_code response <> 201 ->
  createDataciteDOI_request w engine pubID doi encodedXML
  = (Return (VStr (failure_message w pubID response)),
     [EvHttpPost api_url (headers w) (metadata doi encodedXML)]).
Proof.
  intros Hpost Hne. unfold createDataciteDOI_request, bind, call.
  rewrite Hpost. apply Z.eqb_neq in Hne. now rewrite Hne.
Qed.

(** The failure message names the record, the status and the body. *)
Lemma failure_message_contents (w : World) (pubID : pyval)
  (response : Response) :
  PyStr.contains (Py.str w pubID) (failure_message w pubID response)
  /\ PyStr.contains (PyStr.of_Z (status_code response))
       (failure_message w pubID response)
  /\ PyStr.contains (text response) (failure_message w pubID response).
Proof.
  unfold failure_message. repeat split.
  - do 2 apply contains_skip. apply contains_here.
  - do 7 apply contains_skip. apply contains_here.
  - do 9 apply contains_skip. apply contains_here.
Qed.

(** From the request on: a 201 whose body has the field
    [data.attributes.doi] gives the generic failure string. *)
Lemma createDataciteDOI_request_created (w : World) (engine : Engine)
  (pubID doi encodedXML : pyval) (response : Response) (doiDC : pyval) :
  requests_post w api_url (headers w) (metadata doi encodedXML)
  = Return response ->
  status_code response = 201 ->
  doi_field response = Some doiDC ->
  exists e t,
    persist w engine pubID doiDC = (Raise e, t)
    /\ createDataciteDOI_request w engine pubID doi encodedXML
       = (Return (VStr ("An error occurred: " ++ exn_str e)),
          EvHttpPost api_url (headers w) (metadata doi encodedXML) :: t).
Proof.
  intros Hpost H201 Hdoi.
  destruct (persist_raises w engine pubID doiDC) as (e & t & Hp & _).
  exists e, t. split; [exact Hp|].
  unfold createDataciteDOI_request, bind at 1. unfold call.
  rewrite Hpost, H201, Z.eqb_refl.
  unfold doi_field in Hdoi.
  destruct (json response) as [[| | | | | | |l]|]; try discriminate.
  cbn [bind Py.getitem].
  destruct (Py.dict_get l "data") as [[| | | | | | |l1]|]; try discriminate.
  cbn [bind Py.getitem ret].
  destruct (Py.dict_get l1 "attributes") as [[| | | | | | |l2]|];
    try discriminate.
  cbn [bind Py.getitem ret]. rewrite Hdoi.
  cbn [bind ret]. rewrite Hp. cbn. now rewrite app_nil_r.
Qed.

(** From the request on: a 201 whose body is no JSON document or lacks
    [data.attributes.doi] raises, after the POST and nothing else. *)
Lemma createDataciteDOI_request_unparsable (w : World) (engine : Engine)
  (pubID doi encodedXML : pyval) (response : Response) :
  requests_post w api_url (headers w) (metadata doi encodedXML)
  = Return response ->
  status_code response = 201 ->
  doi_field response = None ->
  exists e,
    createDataciteDOI_request w engine pubID doi encodedXML
    = (Raise e, [EvHttpPost api_url (headers w) (metadata doi encodedXML)]).
Proof.
  intros Hpost H201 Hdoi.
  unfold createDataciteDOI_request, bind at 1. unfold call.
  rewrite Hpost, H201, Z.eqb_refl.
  unfold doi_field in Hdoi.
  destruct (json response) as [[| | | | | | |l]|];
    try (eexists; reflexivity).
  cbn [bind Py.getitem].
  destruct (Py.dict_get l "data") as [[| | | | | | |l1]|];
    try (eexists; reflexivity).
  cbn [bind Py.getitem ret].
  destruct (Py.dict_get l1 "attributes") as [[| | | | | | |l2]|];
    try (eexists; reflexivity).
  cbn [bind Py.getitem ret]. rewrite Hdoi. eexists; reflexivity.
Qed.

End Orchestrator.

Section OrchestratorClaims.

Import DOIcorrection Spec.

(** C1, at a run where the registration answers 201 with a registered
    identifier and the alias service answers its page.
    [createDataciteDOI] raises [TypeError] at the call of the encoder,
    before the POST: no statement is executed and no summary is returned.
    The rest of the body, entered with an identifier and a payload, sends
    one statement, the Publication update with the literal ["%s"] bound to
    every parameter, then fails on [result % (...)] and returns the
    generic failure string; the Dataset update is never sent. *)
Theorem createDataciteDOI_created_and_resolved :
  createDataciteDOI
    (Sample.registration_world (Sample.created (Return Sample.registered_doi))
       (Return (Sample.page 200 Sample.alias_page)))
    (VStr "out") Sample.engine (VInt 7)
  = (Raise (Exn TypeError
              "encode_xml_to_base64() missing 1 required positional argument: 'pubID'"),
     [])
  /\ createDataciteDOI_request
       (Sample.registration_world (Sample.created (Return Sample.registered_doi))
          (Return (Sample.page 200 Sample.alias_page)))
       Sample.engine (VInt 7) (VStr "10.20393/u") (VStr "PHJlc291cmNlLz4=")
     = (Return (VStr "An error occurred: unsupported operand type(s) for %: 'CursorResult' and 'tuple'"),
        [EvHttpPost api_url
           [("Content-Type", "application/vnd.api+json");
            ("Authorization", "Basic dG9rZW4=")]
           (metadata (VStr "10.20393/u") (VStr "PHJlc291cmNlLz4="));
         EvHttpGet "http://shortdoi.org/10.20393/abc";
         EvConnect;
         EvExecute update_publication
           [("new_value1", VStr "%s"); ("new_value2", VStr "%s");
            ("new_value3", VStr "%s"); ("target_id", VStr "%s")]]).
Proof. split; reflexivity. Qed.

(** C2, at every destination directory and record id, whatever the
    world (so also when the metadata file is missing): the call of the
    encoder with one argument raises [TypeError]; the encoder's body does
    not run, no file is opened and no request is posted. *)
Theorem createDataciteDOI_encoder_call_raises (w : World)
  (destination_folder : string) (engine : Engine) (record_id : Z) :
  createDataciteDOI w (VStr destination_folder) engine (VInt record_id)
  = (Raise (Exn TypeError
              "encode_xml_to_base64() missing 1 required positional argument: 'pubID'"),
     [])
  /\ posted (trace_of (createDataciteDOI w (VStr destination_folder) engine
                         (VInt record_id))) = []
  /\ file_io (trace_of (createDataciteDOI w (VStr destination_folder) engine
                          (VInt record_id))) = [].
Proof. repeat split. Qed.

(** C3, at a run where the registration answers 400:
    [createDataciteDOI] raises [TypeError] before the POST and returns no
    failure string.  The rest of the body, entered with an identifier and
    a payload, does return the failure string, after the POST alone. *)
Theorem createDataciteDOI_rejected :
  createDataciteDOI
    (Sample.registration_world (Sample.page 400 "Bad Request")
       Sample.unreachable)
    (VStr "out") Sample.engine (VInt 7)
  = (Raise (Exn TypeError
              "encode_xml_to_base64() missing 1 required positional argument: 'pubID'"),
     [])
  /\ createDataciteDOI_request
       (Sample.registration_world (Sample.page 400 "Bad Request")
          Sample.unreachable)
       Sample.engine (VInt 7) (VStr "10.20393/u") VNone
     = (Return
          (VStr
             (Py.nl ++ "DOI creation failed for 7." ++ Py.nl ++ Py.tab
              ++ "Response code: 400, Response body: Bad Request" ++ Py.nl
              ++ Py.tab
              ++ "If file has been created, manually upload the DataCiteXML from N:\PublishedDataLibrary\dataciteXML"
              ++ Py.nl)),
        [EvHttpPost api_url
           [("Content-Type", "application/vnd.api+json");
            ("Authorization", "Basic dG9rZW4=")]
           (metadata (VStr "10.20393/u") VNone)]).
Proof. split; reflexivity. Qed.

(** C4, at a run where the registration answers 201 and the alias
    service cannot be reached: [createDataciteDOI] raises [TypeError]
    before the POST instead of returning a failure string.  The rest of
    the body, entered with an identifier and a payload, catches the error
    of the alias lookup, returns the generic failure string and sends no
    statement. *)
Theorem createDataciteDOI_alias_unreachable :
  createDataciteDOI
    (Sample.registration_world (Sample.created (Return Sample.registered_doi))
       Sample.unreachable)
    (VStr "out") Sample.engine (VInt 7)
  = (Raise (Exn TypeError
              "encode_xml_to_base64() missing 1 required positional argument: 'pubID'"),
     [])
  /\ createDataciteDOI_request
       (Sample.registration_world (Sample.created (Return Sample.registered_doi))
          Sample.unreachable)
       Sample.engine (VInt 7) (VStr "10.20393/u") VNone
     = (Return (VStr "An error occurred: Max retries exceeded"),
        [EvHttpPost api_url
           [("Content-Type", "application/vnd.api+json");
            ("Authorization", "Basic dG9rZW4=")]
           (metadata (VStr "10.20393/u") VNone);
         EvHttpGet "http://shortdoi.org/10.20393/abc"]).
Proof. split; reflexivity. Qed.

(** C9. When the registration service answers 201 with a body that is
    no JSON document, or that lacks [data.attributes.doi],
    [createDataciteDOI] raises and returns no failure string, and no
    statement is executed.  The parse and the lookups stand before the
    [try]: the rest of the body, entered with any identifier and payload,
    raises right after the POST.  (In the whole function the exception is
    the one of the encoder call, which comes first.) *)
Theorem createDataciteDOI_unparsable_created (w : World)
  (destination_folder : pyval) (engine : Engine) (pubID : pyval)
  (response : Response) :
  (forall url hs body, requests_post w url hs body = Return response) ->
  status_code response = 201 ->
  doi_field response = None ->
  (exists e t,
      createDataciteDOI w destination_folder engine pubID = (Raise e, t)
      /\ executed t = [])
  /\ forall doi encodedXML,
      exists e,
        createDataciteDOI_request w engine pubID doi encodedXML
        = (Raise e, [EvHttpPost api_url (headers w) (metadata doi encodedXML)])
        /\ executed [EvHttpPost api_url (headers w) (metadata doi encodedXML)]
           = [].
Proof.
  intros Hpost H201 Hdoi. split.
  - destruct (createDataciteDOI_raises w destination_folder engine pubID)
      as [msg E].
    exists (Exn TypeError msg), []. now rewrite E.
  - intros doi encodedXML.
    destruct (createDataciteDOI_request_unparsable w engine pubID doi
                encodedXML response (Hpost _ _ _) H201 Hdoi) as [e E].
    exists e. now rewrite E.
Qed.

Lemma createDataciteDOI_unparsable_created_witness :
  (forall url hs body,
      requests_post
        (Sample.registration_world (Sample.page 201 "<html>created</html>")
           Sample.unreachable) url hs body
      = Return (Sample.page 201 "<html>created</html>"))
  /\ (exists e t,
         createDataciteDOI
           (Sample.registration_world (Sample.page 201 "<html>created</html>")
              Sample.unreachable)
           (VStr "out") Sample.engine (VInt 7) = (Raise e, t)
         /\ executed t = [])
  /\ forall doi encodedXML,
      exists e,
        createDataciteDOI_request
          (Sample.registration_world (Sample.page 201 "<html>created</html>")
             Sample.unreachable)
          Sample.engine (VInt 7) doi encodedXML
        = (Raise e,
           [EvHttpPost api_url
              (headers
                 (Sample.registration_world
                    (Sample.page 201 "<html>created</html>")
                    Sample.unreachable))
              (metadata doi encodedXML)])
        /\ executed
             [EvHttpPost api_url
                (headers
                   (Sample.registration_world
                      (Sample.page 201 "<html>created</html>")
                      Sample.unreachable))
                (metadata doi encodedXML)]
           = [].
Proof.
  split; [reflexivity|].
  apply (createDataciteDOI_unparsable_created
           (Sample.registration_world (Sample.page 201 "<html>created</html>")
              Sample.unreachable)
           (VStr "out") Sample.engine (VInt 7)
           (Sample.page 201 "<html>created</html>"));
    reflexivity.
Defined.

End OrchestratorClaims.

(* ================================================================== *)
(** * Further properties: the scanner *)
(* ================================================================== *)

Section ScannerMore.

Import DOIcorrection Spec.

(** [dois_required_check] never raises and never drops or reorders what
    the accumulator held: the list after the call is the list before it,
    followed by the integers the call appended. *)
Theorem dois_required_check_accumulates (engine : Engine)
  (pubIDs : list pyval) :
  exists new t,
    dois_required_check engine pubIDs
    = (Return (pubIDs ++ map VInt new)%list, t).
Proof.
  destruct (read_sql_error engine) as [e|] eqn:E.
  - exists [], [EvReadSql query_string;
                EvPrint ("An error occurred: " ++ exn_str e)].
    unfold dois_required_check, read_sql_query, try_except, bind, call,
      print, ret.
    rewrite E. cbn [map]. now rewrite app_nil_r.
  - unfold dois_required_check, read_sql_query, try_except, bind, call,
      print, ret.
    rewrite E. cbn. rewrite append_all_map. eexists; eexists; reflexivity.
Qed.

(** Running the scanner again on the list it returned appends the same
    identifiers a second time: with an unchanged store every reported
    record is then in the list twice. *)
Theorem dois_required_check_twice (engine : Engine) (pubIDs : list pyval) :
  read_sql_error engine = None ->
  exists new first,
    outcome_of (dois_required_check engine pubIDs) = Return first
    /\ first = (pubIDs ++ map VInt new)%list
    /\ outcome_of (dois_required_check engine first)
       = Return (pubIDs ++ map VInt new ++ map VInt new)%list.
Proof.
  intros Hup.
  assert (H : forall l,
             dois_required_check engine l
             = (Return (l ++ map VInt (Store.dois_required_query
                                         (PUBLICATION engine) (DATASET engine)))%list,
                [EvReadSql query_string;
                 EvPrint "query for doi check finished"])).
  { intros l.
    unfold dois_required_check, read_sql_query, try_except, bind, call,
      print, ret.
    rewrite Hup. cbn. now rewrite append_all_map. }
  exists (Store.dois_required_query (PUBLICATION engine) (DATASET engine)).
  eexists. rewrite !H. cbn [outcome_of fst].
  split; [reflexivity|]. split; [reflexivity|].
  now rewrite <- app_assoc.
Qed.

Lemma dois_required_check_twice_witness :
  read_sql_error Sample.engine = None
  /\ exists new first,
      outcome_of (dois_required_check Sample.engine [VInt 9]) = Return first
      /\ first = ([VInt 9] ++ map VInt new)%list
      /\ outcome_of (dois_required_check Sample.engine first)
         = Return ([VInt 9] ++ map VInt new ++ map VInt new)%list.
Proof.
  split; [reflexivity|].
  apply (dois_required_check_twice Sample.engine [VInt 9]). reflexivity.
Defined.

Lemma dois_required_check_store_error_witness :
  read_sql_error Sample.engine_down
  = Some (Exn DBAPIError "Login timeout expired")
  /\ dois_required_check Sample.engine_down [VInt 9]
     = (Return [VInt 9],
        [EvReadSql query_string;
         EvPrint ("An error occurred: "
                  ++ exn_str (Exn DBAPIError "Login timeout expired"))]).
Proof.
  split; [reflexivity|].
  apply (dois_required_check_store_error Sample.engine_down [VInt 9]
           (Exn DBAPIError "Login timeout expired")).
  reflexivity.
Defined.

Lemma query_cons (pubs : list Store.publication_row) (ds : Store.dataset_row)
  (dss : list Store.dataset_row) :
  Store.dois_required_query pubs (ds :: dss)
  = (Store.dois_required_query pubs [ds]
     ++ Store.dois_required_query pubs dss)%list.
Proof.
  unfold Store.dois_required_query, Store.right_join. cbn [flat_map].
  rewrite app_nil_r, filter_app, flat_map_app. reflexivity.
Qed.

(** The rows one dataset row contributes: the publications it refers to
    that pass the WHERE clause. *)
Lemma query_one (pubs : list Store.publication_row) (ds : Store.dataset_row) :
  Store.dois_required_query pubs [ds]
  = map Store.ID
      (filter (fun p => match Store.where_clause (Some p, ds) with
                        | Some true => true
                        | _ => false
                        end)
         (filter (Store.on_clause ds) pubs)).
Proof.
  unfold Store.dois_required_query, Store.right_join. cbn [flat_map].
  rewrite app_nil_r.
  destruct (filter (Store.on_clause ds) pubs) as [|p m]; [reflexivity|].
  generalize (p :: m). intros l.
  induction l as [|q l IH]; [reflexivity|].
  cbn [map filter].
  destruct (Store.where_clause (Some q, ds)) as [[|]|]; cbn [flat_map fst];
    rewrite IH; reflexivity.
Qed.

Lemma count_unique (f : Store.publication_row -> bool)
  (pubs : list Store.publication_row) (pub : Store.publication_row) :
  NoDup (map Store.ID pubs) -> In pub pubs ->
  count_occ Z.eq_dec (map Store.ID (filter f pubs)) (Store.ID pub)
  = if f pub then 1%nat else 0%nat.
Proof.
  induction pubs as [|p ps IH]; intros Hnd Hin; [destruct Hin|].
  cbn [map] in Hnd. apply NoDup_cons_iff in Hnd as [Hp Hnd].
  assert (Hout : forall q, ~ In (Store.ID q) (map Store.ID ps) ->
                 count_occ Z.eq_dec (map Store.ID (filter f ps)) (Store.ID q)
                 = 0%nat).
  { intros q Hq. apply count_occ_not_In. intros H. apply Hq.
    apply in_map_iff in H as (x & Hx & Hf). apply filter_In in Hf as [Hf _].
    rewrite <- Hx. now apply in_map. }
  destruct Hin as [->|Hin].
  - cbn [filter]. destruct (f pub); cbn [map count_occ].
    + destruct (Z.eq_dec (Store.ID pub) (Store.ID pub)) as [_|N];
        [|now destruct N].
      now rewrite (Hout pub Hp).
    + exact (Hout pub Hp).
  - assert (Hne : Store.ID p <> Store.ID pub).
    { intros E. apply Hp. rewrite E. now apply in_map. }
    cbn [filter]. destruct (f p); cbn [map count_occ].
    + destruct (Z.eq_dec (Store.ID p) (Store.ID pub)) as [E|_];
        [now destruct Hne|].
      now apply IH.
    + now apply IH.
Qed.

Lemma filter_twice {A : Type} (f g : A -> bool) (l : list A) :
  filter g (filter f l) = filter (fun x => f x && g x) l.
Proof.
  induction l as [|x l IH]; [reflexivity|].
  cbn [filter]. destruct (f x); cbn [filter andb]; now rewrite IH.
Qed.

(** With unique record ids, a record that is published, has no issuance
    date and is not record 12551 is in the result of the select once for
    each dataset row that refers to it. *)
Theorem dois_required_query_once_per_dataset
  (pubs : list Store.publication_row) (dss : list Store.dataset_row)
  (pub : Store.publication_row) :
  NoDup (map Store.ID pubs) -> In pub pubs -> eligible pub ->
  count_occ Z.eq_dec (Store.dois_required_query pubs dss) (Store.ID pub)
  = List.length (filter (fun ds => Store.on_clause ds pub) dss).
Proof.
  intros Hnd Hin Hel.
  induction dss as [|ds dss IH]; [reflexivity|].
  rewrite query_cons, count_occ_app, IH, query_one, filter_twice.
  rewrite (count_unique _ pubs pub Hnd Hin).
  apply (where_clause_true pub ds) in Hel. rewrite Hel.
  cbn [filter]. destruct (Store.on_clause ds pub); reflexivity.
Qed.

Lemma dois_required_query_once_per_dataset_witness :
  NoDup (map Store.ID Sample.publications)
  /\ In (Store.mkPublication 1 (Some true) None None None) Sample.publications
  /\ eligible (Store.mkPublication 1 (Some true) None None None)
  /\ count_occ Z.eq_dec
       (Store.dois_required_query Sample.publications
          (Store.mkDataset (Some 1) (Some "again") :: Sample.datasets))
       1
     = List.length
         (filter (fun ds => Store.on_clause ds
                              (Store.mkPublication 1 (Some true) None None None))
            (Store.mkDataset (Some 1) (Some "again") :: Sample.datasets)).
Proof.
  assert (Hnd : NoDup (map Store.ID Sample.publications)).
  { cbn. repeat constructor; cbn; intuition discriminate. }
  assert (Hin : In (Store.mkPublication 1 (Some true) None None None)
                  Sample.publications) by (cbn; tauto).
  assert (Hel : eligible (Store.mkPublication 1 (Some true) None None None))
    by (repeat split; discriminate).
  split; [exact Hnd|]. split; [exact Hin|]. split; [exact Hel|].
  exact (dois_required_query_once_per_dataset Sample.publications
           (Store.mkDataset (Some 1) (Some "again") :: Sample.datasets)
           (Store.mkPublication 1 (Some true) None None None) Hnd Hin Hel).
Defined.

End ScannerMore.

(* ================================================================== *)
(** * Further properties: the exporter *)
(* ================================================================== *)

Section ExporterMore.

Import DOIcorrection Spec.

Lemma createXML_after_checks (w : World) (engine : Engine)
  (pubID destination_folder : pyval) (n : Z) (q : string) :
  Py.len pubID = ret n ->
  (forall pre post, Py.percent_s w pre post pubID = ret (pre ++ q ++ post)) ->
  exists t, createXML w engine pubID destination_folder = (Return tt, t).
Proof.
  intros Hlen Hq. unfold createXML. rewrite Hlen, Hq.
  unfold bind at 1. unfold ret at 1.
  destruct (n <=? 0); [eexists; reflexivity|].
  unfold bind at 1. unfold ret at 1.
  match goal with
  | |- context [try_except ?body ?handler] =>
      destruct body as [[[]|e] t'] eqn:E
  end; cbn; eexists; reflexivity.
Qed.

(** [createXML] raises exactly on the identifiers that have no length
    (an integer, [None], a boolean, a date) or that [%s] takes for several
    arguments (a tuple of two or more): then it raises [TypeError] before
    any query or file access.  On every other identifier it returns,
    whatever the store, the parser and the file system do. *)
Theorem createXML_returns_or_type_error (w : World) (engine : Engine)
  (pubID destination_folder : pyval) :
  if createXML_tolerates pubID
  then exists t, createXML w engine pubID destination_folder = (Return tt, t)
  else exists msg,
      createXML w engine pubID destination_folder
      = (Raise (Exn TypeError msg), []).
Proof.
  destruct pubID as [| | |s| |[|x [|y l]]|l|l]; cbn [createXML_tolerates];
    try (eexists; reflexivity).
  - apply (createXML_after_checks w engine (VStr s) destination_folder
             (PyStr.strlen s) s); reflexivity.
  - apply (createXML_after_checks w engine (VTuple [x]) destination_folder
             1 (Py.str w x)); reflexivity.
  - apply (createXML_after_checks w engine (VList l) destination_folder
             (Z.of_nat (List.length l)) (Py.str w (VList l))); reflexivity.
  - apply (createXML_after_checks w engine (VDict l) destination_folder
             (Z.of_nat (List.length l)) (Py.str w (VDict l))); reflexivity.
Qed.

Lemma attrib_get_set_same (l : list (string * string)) (k v : string) :
  attrib_get (Py.dict_set l k v) k = Some v.
Proof.
  induction l as [|[k' v'] l IH]; cbn.
  - now rewrite String.eqb_refl.
  - destruct (String.eqb k' k) eqn:E; cbn.
    + now rewrite String.eqb_refl.
    + now rewrite E.
Qed.

Lemma attrib_get_set_other (l : list (string * string)) (k v k0 : string) :
  k0 <> k -> attrib_get (Py.dict_set l k v) k0 = attrib_get l k0.
Proof.
  intros Hne. induction l as [|[k' v'] l IH]; cbn.
  - apply String.eqb_neq in Hne. rewrite String.eqb_sym in Hne. now rewrite Hne.
  - destruct (String.eqb k' k) eqn:E; cbn.
    + apply String.eqb_eq in E. subst k'.
      apply String.eqb_neq in Hne. rewrite String.eqb_sym in Hne.
      now rewrite Hne.
    + now rewrite IH.
Qed.

(** A run of [createXML] in which every step succeeds on the one row the
    store returns: the element is written once, at the normalised path
    [<destination>/DC<id>.xml]; it carries the three DataCite attributes
    with their fixed values (replacing values the document had for them),
    and its tag, its content and its other attributes are those of the
    parsed document. *)
Theorem createXML_writes_namespaces (w : World) (engine : Engine)
  (id destination_folder xml : string) (result : CursorResult)
  (parsed : Element) :
  id <> "" ->
  engine_connect engine = Return tt ->
  (forall q ps, connection_execute engine q ps = Return result) ->
  result_rows result = [Some xml] ->
  ET_fromstring w xml = Return parsed ->
  (forall path root, ElementTree_write w path root = Return tt) ->
  exists query root,
    createXML w engine (VStr id) (VStr destination_folder)
    = (Return tt,
       [EvConnect;
        EvExecute query [];
        EvWriteXml
          (os_path_normpath w
             (os_path_join w (os_path_normpath w destination_folder)
                ("DC" ++ id ++ ".xml")))
          root;
        EvPrint ("XML for " ++ id ++ " was created and stored in xml_path")])
    /\ el_tag root = el_tag parsed
    /\ el_content root = el_content parsed
    /\ attrib_get (el_attrib root) "xmlns:xsi"
       = Some "http://www.w3.org/2001/XMLSchema-instance"
    /\ attrib_get (el_attrib root) "xmlns"
       = Some "http://datacite.org/schema/kernel-4"
    /\ attrib_get (el_attrib root) "xsi:schemaLocation"
       = Some "http://datacite.org/schema/kernel-4 http://schema.datacite.org/meta/kernel-4.1/metadata.xsd"
    /\ forall k,
        k <> "xmlns:xsi" -> k <> "xmlns" -> k <> "xsi:schemaLocation" ->
        attrib_get (el_attrib root) k = attrib_get (el_attrib parsed) k.
Proof.
  intros Hid Hconn Hexec Hrows Hparse Hwrite.
  eexists. eexists. split.
  - unfold createXML. cbn [Py.len Py.percent_s Py.str].
    assert (Hpos : (PyStr.strlen id <=? 0) = false).
    { apply Z.leb_gt. unfold PyStr.strlen.
      destruct id; [now destruct Hid | cbn [String.length]; lia]. }
    unfold bind at 1. unfold ret at 1. rewrite Hpos.
    unfold bind at 1. unfold ret at 1.
    unfold try_except, bind at 1. unfold call at 1. rewrite Hconn.
    unfold bind at 1. unfold call at 1. rewrite Hexec, Hrows.
    cbn [createXML_rows]. unfold createXML_row.
    rewrite Hparse. cbn [bind Py.normpath Py.percent_s Py.str ret].
    unfold call at 1. rewrite Hwrite. cbn. reflexivity.
  - unfold Py.element_set. cbn [el_tag el_content el_attrib].
    repeat split.
    + rewrite !attrib_get_set_other by discriminate.
      apply attrib_get_set_same.
    + rewrite attrib_get_set_other by discriminate.
      apply attrib_get_set_same.
    + apply attrib_get_set_same.
    + intros k H1 H2 H3. now rewrite !attrib_get_set_other.
Qed.

Lemma createXML_writes_namespaces_witness :
  "7" <> ""
  /\ exists query root,
      createXML (Sample.alias_world (Sample.page 404 "")) Sample.engine
        (VStr "7") (VStr "out")
      = (Return tt,
         [EvConnect;
          EvExecute query [];
          EvWriteXml "out/DC7.xml" root;
          EvPrint "XML for 7 was created and stored in xml_path"])
      /\ el_tag root = "resource"
      /\ el_content root = ""
      /\ attrib_get (el_attrib root) "xmlns:xsi"
         = Some "http://www.w3.org/2001/XMLSchema-instance"
      /\ attrib_get (el_attrib root) "xmlns"
         = Some "http://datacite.org/schema/kernel-4"
      /\ attrib_get (el_attrib root) "xsi:schemaLocation"
         = Some "http://datacite.org/schema/kernel-4 http://schema.datacite.org/meta/kernel-4.1/metadata.xsd"
      /\ forall k,
          k <> "xmlns:xsi" -> k <> "xmlns" -> k <> "xsi:schemaLocation" ->
          attrib_get (el_attrib root) k = attrib_get [] k.
Proof.
  split; [discriminate|].
  apply (createXML_writes_namespaces (Sample.alias_world (Sample.page 404 ""))
           Sample.engine "7" "out" "<resource/>"
           (mkResult "CursorResult" 1 [Some "<resource/>"])
           (mkElement "resource" [] ""));
    try reflexivity; discriminate.
Defined.

End ExporterMore.

Section ExporterFiles.

Import DOIcorrection Spec.

Lemma file_io_app (t1 t2 : list event) :
  file_io (t1 ++ t2) = (file_io t1 ++ file_io t2)%list.
Proof.
  induction t1 as [|ev t1 IH]; [reflexivity|].
  destruct ev; cbn; now rewrite ?IH.
Qed.

Lemma bind_trace {A B : Type} (m : M A) (k : A -> M B) :
  trace_of (bind m k)
  = match m with
    | (Return a, t) => (t ++ trace_of (k a))%list
    | (Raise _, t) => t
    end.
Proof.
  unfold bind, trace_of. destruct m as [[a|e] t]; [|reflexivity].
  now destruct (k a).
Qed.

Lemma createXML_row_files (w : World) (pubID destination_folder : pyval)
  (row : option string) (p : string) :
  In p (file_io (trace_of (createXML_row w pubID destination_folder row))) ->
  exists dir name,
    Py.normpath w destination_folder = ret dir
    /\ Py.percent_s w "DC" ".xml" pubID = ret name
    /\ p = os_path_normpath w (os_path_join w dir name).
Proof.
  unfold createXML_row. rewrite bind_trace.
  destruct row as [s|]; [|intros []].
  destruct (ET_fromstring w s) as [parsed|e]; [|intros []].
  cbn [app]. rewrite bind_trace.
  destruct (Py.normpath w destination_folder) as [[dir|e] t1] eqn:E1.
  - assert (t1 = []) by (destruct destination_folder; now inversion E1).
    subst t1. cbn [app]. rewrite bind_trace.
    destruct (Py.percent_s w "DC" ".xml" pubID) as [[name|e] t2] eqn:E2.
    + assert (t2 = [])
        by (destruct pubID as [| | | | |[|x [|y l]]| |]; now inversion E2).
      subst t2. cbn [app]. rewrite bind_trace. unfold call at 1.
      destruct (ElementTree_write w _ _) as [[]|e].
      * rewrite bind_trace.
        destruct (Py.percent_s w "XML for " _ pubID) as [[msg|e] t3] eqn:E3.
        -- assert (t3 = [])
             by (destruct pubID as [| | | | |[|x [|y l]]| |]; now inversion E3).
           subst t3. cbn. intros [<-|[]]. now exists dir, name.
        -- assert (t3 = [])
             by (destruct pubID as [| | | | |[|x [|y l]]| |]; now inversion E3).
           subst t3. cbn. intros [<-|[]]. now exists dir, name.
      * cbn. intros [<-|[]]. now exists dir, name.
    + assert (t2 = [])
        by (destruct pubID as [| | | | |[|x [|y l]]| |]; now inversion E2).
      subst t2. intros [].
  - assert (t1 = []) by (destruct destination_folder; now inversion E1).
    subst t1. intros [].
Qed.

Lemma createXML_rows_files (w : World) (pubID destination_folder : pyval)
  (rows : list (option string)) (p : string) :
  In p (file_io (trace_of (createXML_rows w pubID destination_folder rows))) ->
  exists dir name,
    Py.normpath w destination_folder = ret dir
    /\ Py.percent_s w "DC" ".xml" pubID = ret name
    /\ p = os_path_normpath w (os_path_join w dir name).
Proof.
  induction rows as [|row rows IH]; [intros []|].
  cbn [createXML_rows]. rewrite bind_trace.
  pose proof (createXML_row_files w pubID destination_folder row p) as Hrow.
  unfold trace_of in Hrow.
  destruct (createXML_row w pubID destination_folder row) as [[[]|e] t];
    cbn [snd] in Hrow; [|exact Hrow].
  rewrite file_io_app. intros H. apply in_app_or in H as [H|H]; auto.
Qed.

Lemma createXML_files (w : World) (engine : Engine)
  (pubID destination_folder : pyval) (p : string) :
  In p (file_io (trace_of (createXML w engine pubID destination_folder))) ->
  exists dir name,
    Py.normpath w destination_folder = ret dir
    /\ Py.percent_s w "DC" ".xml" pubID = ret name
    /\ p = os_path_normpath w (os_path_join w dir name).
Proof.
  unfold createXML. rewrite bind_trace.
  destruct (Py.len pubID) as [[n|e] t0] eqn:E0.
  - assert (t0 = [])
      by (destruct pubID; inversion E0; reflexivity).
    subst t0. cbn [app].
    destruct (n <=? 0); [intros []|].
    rewrite bind_trace.
    destruct (Py.percent_s w _ _ pubID) as [[query|e] t1] eqn:E1.
    + assert (t1 = [])
        by (destruct pubID as [| | | | |[|x [|y l]]| |]; now inversion E1).
      subst t1. cbn [app].
      unfold try_except, bind at 1. unfold call at 1.
      destruct (engine_connect engine) as [[]|e].
      * unfold bind at 1. unfold call at 1.
        destruct (connection_execute engine query []) as [result|e].
        -- pose proof (createXML_rows_files w pubID destination_folder
                         (result_rows result) p) as Hrows.
           unfold trace_of in Hrows |- *.
           destruct (createXML_rows w pubID destination_folder
                       (result_rows result)) as [[[]|e] t];
             cbn in Hrows |- *; rewrite ?app_nil_r, ?file_io_app;
             cbn; rewrite ?app_nil_r; exact Hrows.
        -- cbn. intros [].
      * cbn. intros [].
    + assert (t1 = [])
        by (destruct pubID as [| | | | |[|x [|y l]]| |]; now inversion E1).
      subst t1. intros [].
  - assert (t0 = []) by (destruct pubID; inversion E0; reflexivity).
    subst t0. intros [].
Qed.



(** When the store cannot be reached, [createXML] prints the error and
    returns: no statement is sent and no file is written. *)
Theorem createXML_store_unreachable (w : World) (engine : Engine)
  (id : string) (destination_folder : pyval) (e : pyexn) :
  id <> "" ->
  engine_connect engine = Raise e ->
  createXML w engine (VStr id) destination_folder
  = (Return tt, [EvConnect; EvPrint ("An error occurred: " ++ exn_str e)]).
Proof.
  intros Hid Hconn. unfold createXML. cbn [Py.len Py.percent_s Py.str].
  assert (Hpos : (PyStr.strlen id <=? 0) = false).
  { apply Z.leb_gt. unfold PyStr.strlen.
    destruct id; [now destruct Hid | cbn [String.length]; lia]. }
  unfold bind at 1. unfold ret at 1. rewrite Hpos.
  unfold bind at 1. unfold ret at 1.
  unfold try_except, bind at 1. unfold call at 1. rewrite Hconn.
  reflexivity.
Qed.

Lemma createXML_store_unreachable_witness :
  "7" <> ""
  /\ engine_connect Sample.engine_down
     = Raise (Exn DBAPIError "Login timeout expired")
  /\ createXML (Sample.alias_world (Sample.page 404 "")) Sample.engine_down
       (VStr "7") (VStr "out")
     = (Return tt,
        [EvConnect;
         EvPrint ("An error occurred: "
                  ++ exn_str (Exn DBAPIError "Login timeout expired"))]).
Proof.
  split; [discriminate|]. split; [reflexivity|].
  apply (createXML_store_unreachable (Sample.alias_world (Sample.page 404 ""))
           Sample.engine_down "7" (VStr "out")
           (Exn DBAPIError "Login timeout expired"));
    [discriminate | reflexivity].
Defined.

End ExporterFiles.

(* ================================================================== *)
(** * Further properties: the generator and the encoder *)
(* ================================================================== *)

Section GeneratorEncoderMore.

Import DOIcorrection Spec.

(** Two calls of [getDOIstring] return the same identifier only if the
    random tokens drawn were the same: the identifier is the prefix
    [10.20393/] followed by the whole token. *)
Theorem getDOIstring_distinct (w1 w2 : World) :
  getDOIstring w1 = getDOIstring w2 -> uuid_uuid4 w1 = uuid_uuid4 w2.
Proof.
  unfold getDOIstring, ret. intros H. injection H as H. exact H.
Qed.

Lemma getDOIstring_distinct_witness :
  getDOIstring (Sample.alias_world (Sample.page 404 ""))
  = getDOIstring (Sample.alias_world (Sample.page 200 ""))
  /\ uuid_uuid4 (Sample.alias_world (Sample.page 404 ""))
     = uuid_uuid4 (Sample.alias_world (Sample.page 200 "")).
Proof.
  split; [reflexivity|].
  apply (getDOIstring_distinct (Sample.alias_world (Sample.page 404 ""))
           (Sample.alias_world (Sample.page 200 ""))).
  reflexivity.
Defined.

Lemma encode_xml_to_base64_missing_witness :
  open_rb (Sample.alias_world (Sample.page 404 "")) "out/DC8.xml"
  = Raise (Exn FileNotFoundError
             "[Errno 2] No such file or directory: 'out/DC8.xml'")
  /\ outcome_of (encode_xml_to_base64 (Sample.alias_world (Sample.page 404 ""))
                   (VStr "out") (VInt 8))
     = Return VNone.
Proof.
  split; [reflexivity|].
  apply (encode_xml_to_base64_missing (Sample.alias_world (Sample.page 404 ""))
           "out" 8 "[Errno 2] No such file or directory: 'out/DC8.xml'").
  reflexivity.
Defined.

(** Only a missing file is turned into [None]: any other error of
    opening or reading the file (no permission, a directory in its place)
    leaves [encode_xml_to_base64] as it was raised. *)
Theorem encode_xml_to_base64_other_error (w : World)
  (destination_folder : string) (record_id : Z) (e : pyexn) :
  open_rb w
    (os_path_join w (os_path_normpath w destination_folder)
       ("DC" ++ PyStr.of_Z record_id ++ ".xml"))
  = Raise e ->
  exn_class_of e <> FileNotFoundError ->
  encode_xml_to_base64 w (VStr destination_folder) (VInt record_id)
  = (Raise e,
     [EvOpen (os_path_join w (os_path_normpath w destination_folder)
                ("DC" ++ PyStr.of_Z record_id ++ ".xml"))]).
Proof.
  intros Hopen Hcls.
  unfold encode_xml_to_base64, try_except_class, try_except, bind, call.
  cbn [Py.normpath Py.percent_s Py.str Py.repr ret].
  rewrite Hopen.
  destruct e as [cls msg]. cbn [exn_class_of] in *.
  destruct cls; try (now destruct Hcls); reflexivity.
Qed.

Lemma encode_xml_to_base64_other_error_witness :
  open_rb
    (mkWorld (fun s => s) (fun p => p) (fun a b => a ++ "/" ++ b) "u"
       (2023, 10, 24)
       (fun _ => Raise (Exn PermissionError "[Errno 13] Permission denied"))
       (fun _ => Sample.unreachable) (fun _ _ _ => Sample.unreachable)
       (fun _ => Raise (Exn ParseError "")) (fun _ _ => Return tt) "t")
    "out/DC7.xml"
  = Raise (Exn PermissionError "[Errno 13] Permission denied")
  /\ encode_xml_to_base64
       (mkWorld (fun s => s) (fun p => p) (fun a b => a ++ "/" ++ b) "u"
          (2023, 10, 24)
          (fun _ => Raise (Exn PermissionError "[Errno 13] Permission denied"))
          (fun _ => Sample.unreachable) (fun _ _ _ => Sample.unreachable)
          (fun _ => Raise (Exn ParseError "")) (fun _ _ => Return tt) "t")
       (VStr "out") (VInt 7)
     = (Raise (Exn PermissionError "[Errno 13] Permission denied"),
        [EvOpen "out/DC7.xml"]).
Proof.
  split; [reflexivity|].
  apply (encode_xml_to_base64_other_error
           (mkWorld (fun s => s) (fun p => p) (fun a b => a ++ "/" ++ b) "u"
              (2023, 10, 24)
              (fun _ => Raise (Exn PermissionError "[Errno 13] Permission denied"))
              (fun _ => Sample.unreachable) (fun _ _ _ => Sample.unreachable)
              (fun _ => Raise (Exn ParseError "")) (fun _ _ => Return tt) "t")
           "out" 7 (Exn PermissionError "[Errno 13] Permission denied"));
    [reflexivity | discriminate].
Defined.

Lemma length_b64encode (bs : list byte) :
  List.length (Base64.b64encode bs) = (4 * ((List.length bs + 2) / 3))%nat.
Proof.
  induction bs as [|a|a b|a b c rest IH] using list_ind3; try reflexivity.
  cbn [Base64.b64encode List.length]. rewrite IH.
  replace (S (S (S (List.length rest))) + 2)%nat
    with ((List.length rest + 2) + 1 * 3)%nat by lia.
  rewrite Nat.div_add by lia. lia.
Qed.

Lemma length_string_of_list_byte (bs : list byte) :
  String.length (string_of_list_byte bs) = List.length bs.
Proof.
  unfold string_of_list_byte.
  induction bs as [|b bs IH]; cbn; [reflexivity | now rewrite IH].
Qed.

(** The payload of a file of [n] bytes has [4 * ceil(n / 3)] characters,
    so always a multiple of four. *)
Theorem encode_xml_to_base64_length (w : World) (destination_folder : string)
  (record_id : Z) (content : list byte) (encoded : string) (t : list event) :
  open_rb w
    (os_path_join w (os_path_normpath w destination_folder)
       ("DC" ++ PyStr.of_Z record_id ++ ".xml"))
  = Return content ->
  encode_xml_to_base64 w (VStr destination_folder) (VInt record_id)
  = (Return (VStr encoded), t) ->
  String.length encoded = (4 * ((List.length content + 2) / 3))%nat.
Proof.
  intros Hopen Henc.
  unfold encode_xml_to_base64, try_except_class, try_except, bind, call,
    bytes_decode_utf8 in Henc.
  cbn [Py.normpath Py.percent_s Py.str Py.repr ret] in Henc.
  rewrite Hopen, b64encode_ascii in Henc. cbn in Henc.
  injection Henc as <- _.
  now rewrite length_string_of_list_byte, length_b64encode.
Qed.

Lemma encode_xml_to_base64_length_witness :
  open_rb (Sample.alias_world (Sample.page 404 "")) "out/DC7.xml"
  = Return (list_byte_of_string "<resource/>")
  /\ encode_xml_to_base64 (Sample.alias_world (Sample.page 404 ""))
       (VStr "out") (VInt 7)
     = (Return (VStr "PHJlc291cmNlLz4="), [EvOpen "out/DC7.xml"])
  /\ String.length "PHJlc291cmNlLz4="
     = (4 * ((List.length (list_byte_of_string "<resource/>") + 2) / 3))%nat.
Proof.
  split; [reflexivity|]. split; [reflexivity|].
  apply (encode_xml_to_base64_length (Sample.alias_world (Sample.page 404 ""))
           "out" 7 (list_byte_of_string "<resource/>") "PHJlc291cmNlLz4="
           [EvOpen "out/DC7.xml"]); reflexivity.
Defined.

(** Two metadata files with the same payload have the same bytes: the
    encoder loses nothing of the file. *)
Theorem encode_xml_to_base64_injective (w1 w2 : World)
  (folder1 folder2 : string) (id1 id2 : Z) (content1 content2 : list byte) :
  open_rb w1
    (os_path_join w1 (os_path_normpath w1 folder1)
       ("DC" ++ PyStr.of_Z id1 ++ ".xml"))
  = Return content1 ->
  open_rb w2
    (os_path_join w2 (os_path_normpath w2 folder2)
       ("DC" ++ PyStr.of_Z id2 ++ ".xml"))
  = Return content2 ->
  outcome_of (encode_xml_to_base64 w1 (VStr folder1) (VInt id1))
  = outcome_of (encode_xml_to_base64 w2 (VStr folder2) (VInt id2)) ->
  content1 = content2.
Proof.
  intros H1 H2 Heq.
  assert (E : forall w d i c,
             open_rb w (os_path_join w (os_path_normpath w d)
                          ("DC" ++ PyStr.of_Z i ++ ".xml")) = Return c ->
             outcome_of (encode_xml_to_base64 w (VStr d) (VInt i))
             = Return (VStr (string_of_list_byte (Base64.b64encode c)))).
  { intros w d i c Hopen.
    unfold encode_xml_to_base64, try_except_class, try_except, bind, call,
      bytes_decode_utf8.
    cbn [Py.normpath Py.percent_s Py.str Py.repr ret].
    now rewrite Hopen, b64encode_ascii. }
  rewrite (E _ _ _ _ H1), (E _ _ _ _ H2) in Heq.
  injection Heq as Heq.
  pose proof (b64decode_b64encode content1) as D1.
  rewrite Heq, b64decode_b64encode in D1. now injection D1.
Qed.

Lemma encode_xml_to_base64_injective_witness :
  open_rb (Sample.alias_world (Sample.page 404 "")) "out/DC7.xml"
  = Return (list_byte_of_string "<resource/>")
  /\ outcome_of (encode_xml_to_base64 (Sample.alias_world (Sample.page 404 ""))
                   (VStr "out") (VInt 7))
     = outcome_of (encode_xml_to_base64 (Sample.alias_world (Sample.page 200 ""))
                     (VStr "out") (VInt 7))
  /\ list_byte_of_string "<resource/>" = list_byte_of_string "<resource/>".
Proof.
  split; [reflexivity|]. split; [reflexivity|].
  apply (encode_xml_to_base64_injective
           (Sample.alias_world (Sample.page 404 ""))
           (Sample.alias_world (Sample.page 200 ""))
           "out" "out" 7 7); reflexivity.
Defined.

End GeneratorEncoderMore.

(* ================================================================== *)
(** * Further properties: the alias resolver *)
(* ================================================================== *)

Section AliasResolverMore.

Import PyStr DOIcorrection Spec.

(** [get_short_doi] makes exactly one external call, the GET of
    [http://shortdoi.org/] followed by the identifier as [str] prints it;
    an error of that GET is not handled: it is raised to the caller as it
    is. *)
Theorem get_short_doi_single_get (w : World) (doi : pyval) :
  trace_of (get_short_doi w doi)
  = [EvHttpGet ("http://shortdoi.org/" ++ Py.str w doi)]
  /\ forall e,
      requests_get w ("http://shortdoi.org/" ++ Py.str w doi) = Raise e ->
      outcome_of (get_short_doi w doi) = Raise e.
Proof.
  split.
  - destruct (requests_get w ("http://shortdoi.org/" ++ Py.str w doi))
      as [response|e] eqn:Hget.
    + now rewrite (get_short_doi_answered w doi response Hget).
    + now rewrite (get_short_doi_failed w doi e Hget).
  - intros e Hget. now rewrite (get_short_doi_failed w doi e Hget).
Qed.

Lemma get_short_doi_single_get_witness :
  trace_of (get_short_doi
              (Sample.registration_world (Sample.page 400 "")
                 Sample.unreachable) (VInt 5))
  = [EvHttpGet "http://shortdoi.org/5"]
  /\ outcome_of (get_short_doi
                   (Sample.registration_world (Sample.page 400 "")
                      Sample.unreachable) (VInt 5))
     = Raise (Exn ConnectionError "Max retries exceeded").
Proof.
  destruct (get_short_doi_single_get
              (Sample.registration_world (Sample.page 400 "")
                 Sample.unreachable) (VInt 5)) as [Ht He].
  split; [exact Ht|].
  apply He. reflexivity.
Defined.

Lemma rstrip_idempotent (s : string) : rstrip (rstrip s) = rstrip s.
Proof.
  induction s as [|c s IH]; [reflexivity|].
  cbn [rstrip]. destruct (rstrip s) as [|x r] eqn:E.
  - destruct (is_space c) eqn:Hc; [reflexivity|].
    cbn [rstrip]. now rewrite Hc.
  - change (rstrip (String c (String x r)))
      with (match rstrip (String x r) with
            | EmptyString =>
                if is_space c then EmptyString else String c EmptyString
            | String y r0 => String c (String y r0)
            end).
    now rewrite IH.
Qed.

(** The closing marker is not in any beginning of the text that lies
    before its first occurrence. *)
Lemma no_end_marker_before (body post part tail : string) :
  first_occurrence end_marker (body ++ end_marker ++ post)
  = Some (String.length body) ->
  body = part ++ tail ->
  ~ contains end_marker part.
Proof.
  intros Hfirst Hbody (a & b & Hpart).
  destruct (first_occurrence_bound end_marker a
              (b ++ tail ++ end_marker ++ post)) as (k & Hk & Hle).
  assert (E : body ++ end_marker ++ post
              = a ++ end_marker ++ b ++ tail ++ end_marker ++ post)
    by (rewrite Hbody, Hpart, !append_assoc; reflexivity).
  rewrite <- E, Hfirst in Hk. injection Hk as <-.
  rewrite Hbody, Hpart, !length_append in Hle.
  change (String.length end_marker) with 6%nat in Hle. lia.
Qed.

(** An alias that [get_short_doi] returns is already trimmed (stripping
    it again changes nothing) and does not contain the closing marker
    [</div>]. *)
Theorem get_short_doi_alias_clean (w : World) (doi : pyval) (alias : string)
  (t : list event) :
  get_short_doi w doi = (Return (VStr alias), t) ->
  strip alias = alias /\ ~ contains end_marker alias.
Proof.
  intros H.
  destruct (requests_get w ("http://shortdoi.org/" ++ Py.str w doi))
    as [response|e] eqn:Hget.
  2: { rewrite (get_short_doi_failed w doi e Hget) in H. discriminate. }
  rewrite (get_short_doi_answered w doi response Hget) in H.
  destruct (status_code response =? 200); [|discriminate].
  pose proof (parse_alias (strip (text response))) as Hparse.
  cbv zeta in Hparse, H.
  destruct Hparse as [(Hs & He & pre & body & post & _ & _ & E3 & E4)
                     | (Hno & _)].
  - apply Z.eqb_neq in Hs, He. rewrite Hs, He in H. cbn [negb andb] in H.
    rewrite E4, strip_alias in H.
    assert (Ha : alias = "10/" ++ rstrip body) by now injection H.
    clear H. rewrite Ha. split.
    + now rewrite strip_alias, rstrip_idempotent.
    + intros (a & b & Hab).
      destruct (rstrip_prefix body) as [tail Htail].
      apply (no_end_marker_before body post (rstrip body) tail E3 Htail).
      destruct a as [|c1 [|c2 [|c3 a]]]; cbn in Hab; try discriminate.
      injection Hab as _ _ _ Hab. now exists a, b.
  - destruct Hno as [E | E]; rewrite E in H; cbn [Z.eqb negb andb] in H;
      [|rewrite andb_false_r in H]; discriminate.
Qed.

Lemma get_short_doi_alias_clean_witness :
  get_short_doi
    (Sample.alias_world (Sample.page 200 (" " ++ Sample.alias_page)))
    (VStr "10.20393/abc")
  = (Return (VStr "10/abcde"), [EvHttpGet "http://shortdoi.org/10.20393/abc"])
  /\ strip "10/abcde" = "10/abcde"
  /\ ~ contains end_marker "10/abcde".
Proof.
  split; [reflexivity|].
  apply (get_short_doi_alias_clean
           (Sample.alias_world (Sample.page 200 (" " ++ Sample.alias_page)))
           (VStr "10.20393/abc") "10/abcde"
           [EvHttpGet "http://shortdoi.org/10.20393/abc"]).
  reflexivity.
Defined.

End AliasResolverMore.

(* ================================================================== *)
(** * Further properties: the orchestrator *)
(* ================================================================== *)

Section OrchestratorMore.

Import DOIcorrection Spec.

(** [createDataciteDOI] returns on no input: for every destination,
    store and identifier it raises [TypeError], and it has made no
    external call (no file, no request, no statement) when it does. *)
Theorem createDataciteDOI_never_returns (w : World)
  (destination_folder : pyval) (engine : Engine) (pubID : pyval) :
  (forall v, outcome_of (createDataciteDOI w destination_folder engine pubID)
             <> Return v)
  /\ (exists msg,
         outcome_of (createDataciteDOI w destination_folder engine pubID)
         = Raise (Exn TypeError msg))
  /\ trace_of (createDataciteDOI w destination_folder engine pubID) = [].
Proof.
  destruct (createDataciteDOI_raises w destination_folder engine pubID)
    as [msg E].
  rewrite E. cbn. repeat split; [discriminate | now exists msg].
Qed.

Lemma persist_shape (w : World) (engine : Engine) (pubID doiDC : pyval) :
  exists e t,
    persist w engine pubID doiDC = (Raise e, t)
    /\ posted t = []
    /\ (executed t = []
        \/ executed t = [(update_publication, placeholder_params)]).
Proof.
  unfold persist.
  pose proof (get_short_doi_trace w doiDC) as Ht. unfold trace_of in Ht.
  destruct (get_short_doi w doiDC) as [[shortDOI|e] t0]; cbn [snd] in Ht;
    subst t0.
  - unfold bind at 1. unfold call at 1.
    destruct (engine_connect engine) as [[]|e].
    + unfold bind at 2. unfold call at 1.
      destruct (connection_execute engine update_publication _) as [r|e];
        cbn; eexists; eexists; (split; [reflexivity|]);
        (split; [reflexivity | right; reflexivity]).
    + cbn. eexists; eexists. split; [reflexivity|].
      split; [reflexivity | now left].
  - cbn. eexists; eexists. split; [reflexivity|].
    split; [reflexivity | now left].
Qed.

(** Every run of the body from the request on: the POST comes first;
    what follows posts nothing and sends at most the first statement;
    a returned value is one of the two failure strings. *)
Lemma createDataciteDOI_request_shape (w : World) (engine : Engine)
  (pubID doi encodedXML : pyval) :
  exists o t,
    createDataciteDOI_request w engine pubID doi encodedXML
    = (o, EvHttpPost api_url (headers w) (metadata doi encodedXML) :: t)
    /\ posted t = []
    /\ (executed t = []
        \/ executed t = [(update_publication, placeholder_params)])
    /\ forall v,
        o = Return v ->
        (exists response, v = VStr (failure_message w pubID response))
        \/ (exists e, v = VStr ("An error occurred: " ++ exn_str e)).
Proof.
  assert (Raised : forall (e : pyexn),
             exists o t,
               (@Raise pyval e,
                [EvHttpPost api_url (headers w) (metadata doi encodedXML)])
               = (o, EvHttpPost api_url (headers w) (metadata doi encodedXML) :: t)
               /\ posted t = []
               /\ (executed t = []
                   \/ executed t = [(update_publication, placeholder_params)])
               /\ forall v,
                   o = Return v ->
                   (exists response, v = VStr (failure_message w pubID response))
                   \/ (exists e, v = VStr ("An error occurred: " ++ exn_str e))).
  { intros e. exists (Raise e), []. repeat split; [now left | discriminate]. }
  unfold createDataciteDOI_request, bind at 1. unfold call.
  destruct (requests_post w api_url (headers w) (metadata doi encodedXML))
    as [response|e]; [|apply Raised].
  destruct (status_code response =? 201).
  - destruct (json response) as [[| | | | | | |l]|e]; try apply Raised.
    cbn [bind Py.getitem].
    destruct (Py.dict_get l "data") as [[| | | | | | |l1]|]; try apply Raised.
    cbn [bind Py.getitem ret].
    destruct (Py.dict_get l1 "attributes") as [[| | | | | | |l2]|];
      try apply Raised.
    cbn [bind Py.getitem ret].
    destruct (Py.dict_get l2 "doi") as [doiDC|]; [|apply Raised].
    cbn [bind ret].
    destruct (persist_shape w engine pubID doiDC) as (e & t & Hp & Hposted & Hex).
    rewrite Hp. cbn. rewrite app_nil_r.
    eexists; exists t. split; [reflexivity|].
    split; [exact Hposted|]. split; [exact Hex|].
    intros v [= <-]. right. now exists e.
  - cbn. eexists; exists []. split; [reflexivity|].
    split; [reflexivity|]. split; [now left|].
    intros v [= <-]. left. now exists response.
Qed.

(** From the request on, exactly one registration request is posted,
    with the identifier and the payload as they were given, also when
    the payload is [None]: nothing looks at the payload before the POST
    and nothing posts again after it. *)
Theorem createDataciteDOI_request_single_post (w : World) (engine : Engine)
  (pubID doi encodedXML : pyval) :
  posted (trace_of (createDataciteDOI_request w engine pubID doi encodedXML))
  = [metadata doi encodedXML].
Proof.
  destruct (createDataciteDOI_request_shape w engine pubID doi encodedXML)
    as (o & t & E & Hposted & _).
  rewrite E. cbn. now rewrite Hposted.
Qed.

(** From the request on, the Dataset update is never sent, and the only
    statement that can be sent is the Publication update with the literal
    ["%s"] bound to each of its four parameters: the registered
    identifier, the date, the alias and the record id never reach the
    store. *)
Theorem createDataciteDOI_request_statements (w : World) (engine : Engine)
  (pubID doi encodedXML : pyval) :
  (executed (trace_of (createDataciteDOI_request w engine pubID doi encodedXML))
   = []
   \/ executed (trace_of (createDataciteDOI_request w engine pubID doi
                            encodedXML))
      = [(update_publication, placeholder_params)])
  /\ ~ In update_dataset
       (map fst
          (executed (trace_of (createDataciteDOI_request w engine pubID doi
                                 encodedXML)))).
Proof.
  destruct (createDataciteDOI_request_shape w engine pubID doi encodedXML)
    as (o & t & E & _ & Hex & _).
  rewrite E. cbn [trace_of snd executed].
  split; [exact Hex|].
  destruct Hex as [-> | ->]; cbn; [tauto|].
  intros [H|[]]. discriminate H.
Qed.

(** From the request on, a returned value is never the summary of
    affected rows: it is the failure message of a response that is not a
    201, or the generic ["An error occurred: ..."] string. *)
Theorem createDataciteDOI_request_returns (w : World) (engine : Engine)
  (pubID doi encodedXML v : pyval) (t : list event) :
  createDataciteDOI_request w engine pubID doi encodedXML = (Return v, t) ->
  (exists response, v = VStr (failure_message w pubID response))
  \/ (exists e, v = VStr ("An error occurred: " ++ exn_str e)).
Proof.
  intros H.
  destruct (createDataciteDOI_request_shape w engine pubID doi encodedXML)
    as (o & t' & E & _ & _ & Hret).
  rewrite E in H. injection H as -> _. now apply Hret.
Qed.

Lemma createDataciteDOI_request_returns_witness :
  createDataciteDOI_request
    (Sample.registration_world (Sample.created (Return Sample.registered_doi))
       (Return (Sample.page 200 Sample.alias_page)))
    Sample.engine (VInt 7) (VStr "10.20393/u") VNone
  = (Return (VStr "An error occurred: unsupported operand type(s) for %: 'CursorResult' and 'tuple'"),
     [EvHttpPost api_url
        (headers (Sample.registration_world
                    (Sample.created (Return Sample.registered_doi))
                    (Return (Sample.page 200 Sample.alias_page))))
        (metadata (VStr "10.20393/u") VNone);
      EvHttpGet "http://shortdoi.org/10.20393/abc";
      EvConnect;
      EvExecute update_publication placeholder_params])
  /\ ((exists response,
          VStr "An error occurred: unsupported operand type(s) for %: 'CursorResult' and 'tuple'"
          = VStr (failure_message
                    (Sample.registration_world
                       (Sample.created (Return Sample.registered_doi))
                       (Return (Sample.page 200 Sample.alias_page)))
                    (VInt 7) response))
      \/ (exists e,
             VStr "An error occurred: unsupported operand type(s) for %: 'CursorResult' and 'tuple'"
             = VStr ("An error occurred: " ++ exn_str e))).
Proof.
  split; [reflexivity|].
  apply (createDataciteDOI_request_returns
           (Sample.registration_world
              (Sample.created (Return Sample.registered_doi))
              (Return (Sample.page 200 Sample.alias_page)))
           Sample.engine (VInt 7) (VStr "10.20393/u") VNone _
           [EvHttpPost api_url
              (headers (Sample.registration_world
                          (Sample.created (Return Sample.registered_doi))
                          (Return (Sample.page 200 Sample.alias_page))))
              (metadata (VStr "10.20393/u") VNone);
            EvHttpGet "http://shortdoi.org/10.20393/abc";
            EvConnect;
            EvExecute update_publication placeholder_params]).
  reflexivity.
Defined.

(** From the request on, a response with a status other than 201 gives,
    after the POST and no other external call, a string that contains the
    record identifier, the status code and the body of the response. *)
Theorem createDataciteDOI_request_rejected_message (w : World)
  (engine : Engine) (pubID doi encodedXML : pyval) (response : Response) :
  requests_post w api_url (headers w) (metadata doi encodedXML)
  = Return response ->
  status_code response <> 201 ->
  exists message,
    createDataciteDOI_request w engine pubID doi encodedXML
    = (Return (VStr message),
       [EvHttpPost api_url (headers w) (metadata doi encodedXML)])
    /\ PyStr.contains (Py.str w pubID) message
    /\ PyStr.contains (PyStr.of_Z (status_code response)) message
    /\ PyStr.contains (text response) message.
Proof.
  intros Hpost Hne. exists (failure_message w pubID response).
  split.
  - now apply createDataciteDOI_request_rejected.
  - apply failure_message_contents.
Qed.

Lemma createDataciteDOI_request_rejected_message_witness :
  status_code (Sample.page 400 "Bad Request") <> 201
  /\ exists message,
      createDataciteDOI_request
        (Sample.registration_world (Sample.page 400 "Bad Request")
           Sample.unreachable)
        Sample.engine (VInt 7) (VStr "10.20393/u") VNone
      = (Return (VStr message),
         [EvHttpPost api_url
            (headers (Sample.registration_world (Sample.page 400 "Bad Request")
                        Sample.unreachable))
            (metadata (VStr "10.20393/u") VNone)])
      /\ PyStr.contains
           (Py.str (Sample.registration_world (Sample.page 400 "Bad Request")
                      Sample.unreachable) (VInt 7)) message
      /\ PyStr.contains (PyStr.of_Z (status_code (Sample.page 400 "Bad Request")))
           message
      /\ PyStr.contains (text (Sample.page 400 "Bad Request")) message.
Proof.
  assert (Hne : status_code (Sample.page 400 "Bad Request") <> 201)
    by (cbn; discriminate).
  split; [exact Hne|].
  exact (createDataciteDOI_request_rejected_message
           (Sample.registration_world (Sample.page 400 "Bad Request")
              Sample.unreachable)
           Sample.engine (VInt 7) (VStr "10.20393/u") VNone
           (Sample.page 400 "Bad Request") eq_refl Hne).
Defined.

(** From the request on, an error of the POST itself (the service cannot
    be reached) is not caught: it is raised to the caller, and nothing
    else was called. *)
Theorem createDataciteDOI_request_post_error (w : World) (engine : Engine)
  (pubID doi encodedXML : pyval) (e : pyexn) :
  requests_post w api_url (headers w) (metadata doi encodedXML) = Raise e ->
  createDataciteDOI_request w engine pubID doi encodedXML
  = (Raise e, [EvHttpPost api_url (headers w) (metadata doi encodedXML)]).
Proof.
  intros Hpost. unfold createDataciteDOI_request, bind, call.
  now rewrite Hpost.
Qed.

Lemma createDataciteDOI_request_post_error_witness :
  requests_post (Sample.world Sample.unreachable Sample.unreachable) api_url
    (headers (Sample.world Sample.unreachable Sample.unreachable))
    (metadata (VStr "10.20393/u") VNone)
  = Raise (Exn ConnectionError "Max retries exceeded")
  /\ createDataciteDOI_request
       (Sample.world Sample.unreachable Sample.unreachable)
       Sample.engine (VInt 7) (VStr "10.20393/u") VNone
     = (Raise (Exn ConnectionError "Max retries exceeded"),
        [EvHttpPost api_url
           (headers (Sample.world Sample.unreachable Sample.unreachable))
           (metadata (VStr "10.20393/u") VNone)]).
Proof.
  split; [reflexivity|].
  apply (createDataciteDOI_request_post_error
           (Sample.world Sample.unreachable Sample.unreachable)
           Sample.engine (VInt 7) (VStr "10.20393/u") VNone
           (Exn ConnectionError "Max retries exceeded")).
  reflexivity.
Defined.

End OrchestratorMore.

(* ================================================================== *)
(** * Further properties: the exporter and the encoder together *)
(* ================================================================== *)

Section ExporterEncoder.

Import DOIcorrection Spec.

Lemma encode_xml_to_base64_opens (w : World) (destination_folder id : string) :
  file_io (trace_of (encode_xml_to_base64 w (VStr destination_folder)
                       (VStr id)))
  = [os_path_join w (os_path_normpath w destination_folder)
       ("DC" ++ id ++ ".xml")].
Proof.
  unfold encode_xml_to_base64, try_except_class, try_except, bind, call,
    bytes_decode_utf8.
  cbn [Py.normpath Py.percent_s Py.str ret].
  destruct (open_rb w _) as [content|[cls msg]].
  - now rewrite b64encode_ascii.
  - destruct cls; reflexivity.
Qed.

(** The exporter and the encoder build the path of the metadata file
    each on its own, and the exporter normalises it once more.  Where
    that last normalisation changes nothing, the one file the encoder
    opens is the file the exporter wrote. *)
Theorem encoder_opens_what_exporter_wrote (w : World) (engine : Engine)
  (destination_folder id written : string) :
  os_path_normpath w
    (os_path_join w (os_path_normpath w destination_folder)
       ("DC" ++ id ++ ".xml"))
  = os_path_join w (os_path_normpath w destination_folder)
      ("DC" ++ id ++ ".xml") ->
  In written
    (file_io (trace_of (createXML w engine (VStr id)
                          (VStr destination_folder)))) ->
  file_io (trace_of (encode_xml_to_base64 w (VStr destination_folder)
                       (VStr id)))
  = [written].
Proof.
  intros Hnorm Hin.
  apply createXML_files in Hin as (dir & name & Hdir & Hname & Hw).
  unfold Py.normpath, Py.percent_s, Py.str, ret in Hdir, Hname.
  assert (Ed : dir = os_path_normpath w destination_folder) by congruence.
  assert (En : name = "DC" ++ id ++ ".xml") by congruence.
  rewrite Hw, Ed, En, Hnorm. apply encode_xml_to_base64_opens.
Qed.

Lemma encoder_opens_what_exporter_wrote_witness :
  In "out/DC7.xml"
    (file_io (trace_of (createXML (Sample.alias_world (Sample.page 404 ""))
                          Sample.engine (VStr "7") (VStr "out"))))
  /\ file_io (trace_of (encode_xml_to_base64
                          (Sample.alias_world (Sample.page 404 ""))
                          (VStr "out") (VStr "7")))
     = ["out/DC7.xml"].
Proof.
  assert (H : In "out/DC7.xml"
                (file_io (trace_of (createXML
                                      (Sample.alias_world (Sample.page 404 ""))
                                      Sample.engine (VStr "7") (VStr "out")))))
    by (cbn; now left).
  split; [exact H|].
  exact (encoder_opens_what_exporter_wrote
           (Sample.alias_world (Sample.page 404 "")) Sample.engine
           "out" "7" "out/DC7.xml" eq_refl H).
Defined.

End ExporterEncoder.
